(** * Checkpoint key rewriting and configuration objects

    A shallow embedding of

    - [rename_key] and the renaming loop of [convert_pix2seq_checkpoint]
      (models/pix2seq/convert_pix2seq_to_pytorch.py),
    - [DPTConfig.__init__] (models/dpt/configuration_dpt.py),
    - [OneFormerConfig.__init__], [_setup_cfg] and [to_dict]
      (models/oneformer/configuration_oneformer.py),

    together with the properties the specification states about them. *)

From Stdlib Require Import Ascii.
From stdpp Require Import gmap strings list fin_maps.

(** ** Exceptions and fallible computations *)

(** The exceptions the modelled code can raise, without the text of
    their messages; a [KeyError] keeps the key that was looked up.
    [External] stands for whatever a collaborator outside these files
    raises. *)
Inductive exn : Type :=
  | ValueError
  | KeyError (key : string)
  | IndexError
  | AttributeError (name : string)
  | External (msg : string).

Inductive result (A : Type) : Type :=
  | Ok (a : A)
  | Raise (e : exn).
Arguments Ok {A} a.
Arguments Raise {A} e.

Definition rbind {A B} (m : result A) (k : A → result B) : result B :=
  match m with
  | Ok a => k a
  | Raise e => Raise e
  end.

#[global] Instance result_bind : MBind result := λ A B k m, rbind m k.
#[global] Instance result_ret : MRet result := λ A a, Ok a.

Definition succeeds {A} (m : result A) : Prop := ∃ a, m = Ok a.

(** ** Python string operations used by the rewriter *)

Module PyStr.

(** [s.startswith(p)] *)
Fixpoint startswith (p s : string) : bool :=
  match p, s with
  | EmptyString, _ => true
  | String _ _, EmptyString => false
  | String a p', String b s' => Ascii.eqb a b && startswith p' s'
  end.

(** [sub in s] *)
Fixpoint contains (sub s : string) : bool :=
  startswith sub s ||
  match s with
  | EmptyString => false
  | String _ s' => contains sub s'
  end.

(** [s.replace(old, new)] for a non-empty [old]: scan from the left,
    replace each occurrence and resume after it.  [skip] counts the
    characters of a matched occurrence that are still to be dropped. *)
Fixpoint replace_from (old new : string) (skip : nat) (s : string) : string :=
  match s with
  | EmptyString => EmptyString
  | String c s' =>
      match skip with
      | S k => replace_from old new k s'
      | O =>
          if startswith old s
          then new +:+ replace_from old new (String.length old - 1) s'
          else String c (replace_from old new 0 s')
      end
  end.

(** [s.replace("", new)] puts [new] around every character. *)
Fixpoint intersperse (new s : string) : string :=
  new +:+ match s with
          | EmptyString => EmptyString
          | String c s' => String c (intersperse new s')
          end.

Definition replace (old new s : string) : string :=
  match old with
  | EmptyString => intersperse new s
  | String _ _ => replace_from old new 0 s
  end.

End PyStr.

Import PyStr.

(** ** The name rules of [rename_key] *)

(** [if cond in name: name = name.replace(old, new)] *)
Definition rule (cond old new name : string) : string :=
  if contains cond name then replace old new name else name.

(** The common case, where the tested and the replaced substring agree. *)
Definition sub (old new name : string) : string := rule old old new name.

(** Lines 22-107: the general and the structural renamings. *)
Definition structural_renames (name : string) : string :=
  (* general renamings *)
  let name := sub "/.ATTRIBUTES/VARIABLE_VALUE" "" name in
  let name := sub "/" "." name in
  (* stem conv *)
  let name := sub "model.encoder.stem_conv" "encoder.embeddings.patch_embeddings.projection" name in
  let name := sub "model.encoder.stem_conv.bias" "encoder.embeddings.patch_embeddings.projection" name in
  (* stem layernorm *)
  let name := sub "model.encoder.stem_ln" "encoder.embeddings.patch_embeddings.layer_norm" name in
  let name := rule "model.encoder.stem_ln.beta" "model.encoder.stem_ln"
                   "encoder.embeddings.patch_embeddings.layer_norm" name in
  (* encoder projection *)
  let name := sub "model.proj_ln" "projection.layernorm" name in
  let name := sub "model.proj_mlp.layernorms.0" "projection.projection_mlp.layernorm" name in
  let name := sub "model.proj_mlp.mlp_layers.0" "projection.projection_mlp" name in
  let name := sub "model.proj" "projection.projection" name in
  (* decoder embeddings, output bias and layernorm *)
  let name := sub "model.decoder.ar_decoder.Stoken_embedding" "decoder.embed_tokens.weight" name in
  let name := sub "model.decoder.ar_decoder.Sseq_pos_embedding" "decoder.embed_positions.embeddings" name in
  let name := sub "model.decoder.ar_decoder.Soutp_bias" "lm_head.bias" name in
  let name := sub "model.decoder.output_ln" "output_layernorm" name in
  (* decoder layers *)
  let name := sub "model.decoder.decoder.dec_layers" "decoder.layers" name in
  let name := sub "self_ln" "self_attn_layer_norm" name in
  let name := sub "cross_ln" "encoder_attn_layer_norm" name in
  let name := sub "self_mha._query_dense" "self_attn.q_proj" name in
  let name := sub "self_mha._key_dense" "self_attn.k_proj" name in
  let name := sub "self_mha._value_dense" "self_attn.v_proj" name in
  let name := sub "self_mha._output_dense" "self_attn.out_proj" name in
  let name := sub "cross_mha._query_dense" "encoder_attn.q_proj" name in
  let name := sub "cross_mha._key_dense" "encoder_attn.k_proj" name in
  let name := sub "cross_mha._value_dense" "encoder_attn.v_proj" name in
  let name := sub "cross_mha._output_dense" "encoder_attn.out_proj" name in
  let name :=
    if contains "decoder" name then
      let name := sub "mlp.mlp_layers.0.dense1" "fc1" name in
      let name := sub "mlp.mlp_layers.0.dense2" "fc2" name in
      let name := sub "mlp.layernorms.0" "layernorm" name in
      name
    else name in
  (* encoder layers *)
  let name := sub "model.encoder.transformer_encoder.enc_layers" "encoder.layer" name in
  let name := sub "mha_ln" "layernorm_before" name in
  let name := sub "mha._output_dense" "attention.output.dense" name in
  let name := sub "mha" "attention.attention" name in
  let name := sub "_query_dense" "query" name in
  let name := sub "_key_dense" "key" name in
  let name := sub "_value_dense" "value" name in
  let name := sub "mlp.mlp_layers.0.dense1" "intermediate.dense" name in
  let name := sub "mlp.mlp_layers.0.dense2" "output.dense" name in
  let name := sub "mlp.layernorms.0" "layernorm_after" name in
  (* output layer norm *)
  let name := sub "model.encoder.output_ln" "layernorm" name in
  name.

(** Line 110: the name denotes an attention output projection. *)
Definition is_out_proj (name : string) : bool :=
  contains "attention.output.dense" name || contains "out_proj" name.

(** Line 115: the name denotes a query, key or value projection. *)
Definition is_qkv (name : string) : bool :=
  (contains "query" name || contains "key" name || contains "value" name)
  || (contains "q_proj" name || contains "k_proj" name || contains "v_proj" name).

(** Lines 127-128: the name part of the kernel step. *)
Definition rename_kernel (name : string) : string := sub "kernel" "weight" name.

(** Lines 134-137. *)
Definition rename_gamma_beta (name : string) : string :=
  let name := sub "gamma" "weight" name in
  let name := sub "beta" "bias" name in
  name.

(** Line 140: the names that stay at the top level of the model. *)
Definition exempt (name : string) : bool :=
  startswith "lm_head" name || contains "output_layernorm" name.

(** Lines 139-141. *)
Definition add_prefix (name : string) : string :=
  if negb (startswith "lm_head" name) && negb (contains "output_layernorm" name)
  then "model." +:+ name
  else name.

(** The name as it stands when line 139 is reached. *)
Definition rewritten_name (name : string) : string :=
  rename_gamma_beta (rename_kernel (structural_renames name)).

(** ** n-dimensional arrays

    An array is its shape and its elements in row-major (C) order, the
    logical order numpy's [reshape] and [flatten] preserve.  The element
    type is left open: the rewriter moves elements and never computes
    with them. *)

Record ndarray (A : Type) : Type := NDArray { shape : list nat; data : list A }.
Arguments NDArray {A} shape data.
Arguments shape {A} _.
Arguments data {A} _.

Section NDArray.
Context {A : Type}.

(** [a.size] *)
Definition size_of (shp : list nat) : nat := foldr Nat.mul 1 shp.
Definition asize (a : ndarray A) : nat := size_of (shape a).

(** [a.ndim] *)
Definition ndim (a : ndarray A) : nat := length (shape a).

(** The array holds as many elements as its shape announces. *)
Definition well_formed (a : ndarray A) : Prop := length (data a) = asize a.

(** [a.shape[0]] and [a.shape[-1]]; a 0-d array has an empty shape
    tuple and indexing it raises. *)
Definition shape_first (a : ndarray A) : result nat :=
  match head (shape a) with
  | Some d => Ok d
  | None => Raise IndexError
  end.

Definition shape_last (a : ndarray A) : result nat :=
  match last (shape a) with
  | Some d => Ok d
  | None => Raise IndexError
  end.

(** [np.reshape(a, (k, -1))]: the second dimension is inferred; numpy
    refuses when the known dimension is 0 or does not divide the size. *)
Definition np_reshape_rows (k : nat) (a : ndarray A) : result (ndarray A) :=
  if (k =? 0) || negb (asize a `mod` k =? 0)
  then Raise ValueError
  else Ok (NDArray [k; asize a `div` k] (data a)).

(** [a.flatten()] *)
Definition flatten (a : ndarray A) : ndarray A := NDArray [asize a] (data a).

(** Row-major position of a multi-index, and back. *)
Definition ravel (shp idx : list nat) : nat :=
  foldl (λ acc di, acc * di.1 + di.2) 0 (zip shp idx).

Definition unravel (shp : list nat) (pos : nat) : list nat :=
  (foldr (λ d iq, ((iq.2 `mod` d) :: iq.1, iq.2 `div` d)) ([], pos) shp).1.

(** Axis [i] of the result is axis [axes[i]] of the argument: the
    element at [J] in the result is the one at [I] in the argument,
    where [I[axes[i]] = J[i]]. *)
Definition source_index (axes J : list nat) : list nat :=
  foldr (λ aj I, <[aj.1 := aj.2]> I) (replicate (length axes) 0) (zip axes J).

Definition permute_axes (axes : list nat) (a : ndarray A) : ndarray A :=
  let shp := (λ ax, shape a !!! ax) <$> axes in
  NDArray shp
    (omap (λ pos, data a !! ravel (shape a) (source_index axes (unravel shp pos)))
          (seq 0 (asize a))).

(** [np.transpose(a, axes=axes)] *)
Definition np_transpose_axes (axes : list nat) (a : ndarray A) : result (ndarray A) :=
  if bool_decide (axes ≡ₚ seq 0 (ndim a))
  then Ok (permute_axes axes a)
  else Raise ValueError.

(** [np.transpose(a)] reverses the axes. *)
Definition np_transpose (a : ndarray A) : ndarray A :=
  permute_axes (reverse (seq 0 (ndim a))) a.

(** ** [rename_key] *)

Definition rename_key (name : string) (param : ndarray A)
  : result (string * ndarray A) :=
  let name := structural_renames name in
  (* handle qkv *)
  param ←
    (if is_out_proj name then
       if contains "kernel" name then
         d ← shape_last param; np_reshape_rows d param
       else Ok param
     else Ok param);
  param ←
    (if is_qkv name then
       if contains "kernel" name then
         d ← shape_first param; np_reshape_rows d param
       else if contains "bias" name then Ok (flatten param)
       else Ok param
     else Ok param);
  (* rename kernel, gamma and beta (+ important: transpose if kernel!) *)
  np ←
    (if contains "kernel" name then
       let name := replace "kernel" "weight" name in
       if contains "patch_embeddings" name then
         param ← np_transpose_axes [3; 2; 0; 1] param; Ok (name, param)
       else Ok (name, np_transpose param)
     else Ok (name, param));
  let name := rename_gamma_beta np.1 in
  (* add prefix *)
  let name := add_prefix name in
  Ok (name, np.2).

End NDArray.

(** ** The renaming loop of [convert_pix2seq_checkpoint]

    Lines 161-168.  [torch.from_numpy] creates one tensor object per
    parameter; the state dict maps names to these objects.  Objects are
    kept in a store and named by their address, so that two entries of
    the state dict can be told to hold the same object. *)

Section Driver.
Context {A : Type}.

Record state : Type := State {
  tensors : list (ndarray A);       (* the tensor objects, by address *)
  state_dict : gmap string nat      (* name ↦ address *)
}.

(** [torch.from_numpy(param)] *)
Definition from_numpy (param : ndarray A) (objs : list (ndarray A))
  : nat * list (ndarray A) :=
  (length objs, objs ++ [param]).

(** [for name, param in tf_vars.items(): ...] *)
Fixpoint rename_keys (tf_vars : list (string * ndarray A)) (st : state)
  : result state :=
  match tf_vars with
  | [] => Ok st
  | (name, param) :: rest =>
      np ← rename_key name param;
      let (addr, objs) := from_numpy np.2 (tensors st) in
      rename_keys rest (State objs (<[np.1 := addr]> (state_dict st)))
  end.

(** [state_dict["lm_head.weight"] = state_dict["model.decoder.embed_tokens.weight"]] *)
Definition tie_lm_head (st : state) : result state :=
  match state_dict st !! "model.decoder.embed_tokens.weight" with
  | Some addr => Ok (State (tensors st) (<["lm_head.weight" := addr]> (state_dict st)))
  | None => Raise (KeyError "model.decoder.embed_tokens.weight")
  end.

Definition convert_state_dict (tf_vars : list (string * ndarray A)) : result state :=
  st ← rename_keys tf_vars (State [] ∅);
  tie_lm_head st.

(** The tensor an entry of the state dict denotes. *)
Definition entry (st : state) (name : string) : option (ndarray A) :=
  addr ← state_dict st !! name; tensors st !! addr.

(** Every address in the state dict is the address of a tensor. *)
Definition addresses_valid (st : state) : Prop :=
  ∀ name addr, state_dict st !! name = Some addr → addr < length (tensors st).

End Driver.
Arguments state A : clear implicits.

(** ** Python values held by configuration objects *)

(** A float is kept as its decimal literal [mantissa × 10 ^ exponent]:
    the configuration code stores and copies floats and never computes
    with them. *)
#[warnings="-register-all"] Inductive pyval : Type :=
  | PNone
  | PBool (b : bool)
  | PInt (z : Z)
  | PFloat (mantissa exponent : Z)
  | PStr (s : string)
  | PList (l : list pyval).

(** [v in [s1, ..., sn]] for a list of string literals. *)
Definition in_strings (v : pyval) (l : list string) : bool :=
  match v with
  | PStr s => bool_decide (s ∈ l)
  | _ => false
  end.

(** [d[key]] on a dictionary. *)
Definition getitem {V} (d : gmap string V) (key : string) : result V :=
  match d !! key with
  | Some v => Ok v
  | None => Raise (KeyError key)
  end.

(** ** [DPTConfig] *)

Module DPTConfig.

Definition model_type : string := "dpt".

(** The named arguments of [__init__]. *)
Record args : Type := Args {
  hidden_size : pyval;
  num_hidden_layers : pyval;
  num_attention_heads : pyval;
  intermediate_size : pyval;
  hidden_act : pyval;
  hidden_dropout_prob : pyval;
  attention_probs_dropout_prob : pyval;
  initializer_range : pyval;
  layer_norm_eps : pyval;
  is_encoder_decoder : pyval;
  image_size : pyval;
  patch_size : pyval;
  num_channels : pyval;
  qkv_bias : pyval;
  out_indices : pyval;
  readout_type : pyval;
  reassemble_factors : pyval;
  neck_hidden_sizes : pyval;
  fusion_hidden_size : pyval;
  in_index : pyval;
  use_batch_norm_in_fusion_residual : pyval;
  use_auxiliary_head : pyval;
  auxiliary_loss_weight : pyval;
  semantic_loss_ignore_index : pyval;
  semantic_classifier_dropout : pyval
}.

(** Their default values. *)
Definition defaults : args := {|
  hidden_size := PInt 768;
  num_hidden_layers := PInt 12;
  num_attention_heads := PInt 12;
  intermediate_size := PInt 3072;
  hidden_act := PStr "gelu";
  hidden_dropout_prob := PFloat 0 0;
  attention_probs_dropout_prob := PFloat 0 0;
  initializer_range := PFloat 2 (-2);
  layer_norm_eps := PFloat 1 (-12);
  is_encoder_decoder := PBool false;
  image_size := PInt 384;
  patch_size := PInt 16;
  num_channels := PInt 3;
  qkv_bias := PBool true;
  out_indices := PList [PInt 2; PInt 5; PInt 8; PInt 11];
  readout_type := PStr "project";
  reassemble_factors := PList [PInt 4; PInt 2; PInt 1; PFloat 5 (-1)];
  neck_hidden_sizes := PList [PInt 96; PInt 192; PInt 384; PInt 768];
  fusion_hidden_size := PInt 256;
  in_index := PInt (-1);
  use_batch_norm_in_fusion_residual := PBool false;
  use_auxiliary_head := PBool true;
  auxiliary_loss_weight := PFloat 4 (-1);
  semantic_loss_ignore_index := PInt 255;
  semantic_classifier_dropout := PFloat 1 (-1)
|}.

Definition readout_types : list string := ["ignore"; "add"; "project"].

(** The arguments [a] with [readout_type=v]. *)
Definition with_readout_type (v : pyval) (a : args) : args :=
  {| hidden_size := hidden_size a;
     num_hidden_layers := num_hidden_layers a;
     num_attention_heads := num_attention_heads a;
     intermediate_size := intermediate_size a;
     hidden_act := hidden_act a;
     hidden_dropout_prob := hidden_dropout_prob a;
     attention_probs_dropout_prob := attention_probs_dropout_prob a;
     initializer_range := initializer_range a;
     layer_norm_eps := layer_norm_eps a;
     is_encoder_decoder := is_encoder_decoder a;
     image_size := image_size a;
     patch_size := patch_size a;
     num_channels := num_channels a;
     qkv_bias := qkv_bias a;
     out_indices := out_indices a;
     readout_type := v;
     reassemble_factors := reassemble_factors a;
     neck_hidden_sizes := neck_hidden_sizes a;
     fusion_hidden_size := fusion_hidden_size a;
     in_index := in_index a;
     use_batch_norm_in_fusion_residual := use_batch_norm_in_fusion_residual a;
     use_auxiliary_head := use_auxiliary_head a;
     auxiliary_loss_weight := auxiliary_loss_weight a;
     semantic_loss_ignore_index := semantic_loss_ignore_index a;
     semantic_classifier_dropout := semantic_classifier_dropout a |}.

Section Init.
(** [PretrainedConfig.__init__], the initializer of the base class,
    which is not part of these files: given the keyword arguments
    and the attributes of [self] so far, it fails or returns the
    attributes of [self] afterwards. *)
Variable super_init :
  gmap string pyval → gmap string pyval → result (gmap string pyval).

(** [DPTConfig.__init__]; the result is [self.__dict__]. *)
Definition __init__ (a : args) (kwargs : gmap string pyval)
  : result (gmap string pyval) :=
  self ← super_init kwargs ∅;
  let self := <["hidden_size" := hidden_size a]> self in
  let self := <["num_hidden_layers" := num_hidden_layers a]> self in
  let self := <["num_attention_heads" := num_attention_heads a]> self in
  let self := <["intermediate_size" := intermediate_size a]> self in
  let self := <["hidden_act" := hidden_act a]> self in
  let self := <["hidden_dropout_prob" := hidden_dropout_prob a]> self in
  let self := <["attention_probs_dropout_prob" := attention_probs_dropout_prob a]> self in
  let self := <["initializer_range" := initializer_range a]> self in
  let self := <["layer_norm_eps" := layer_norm_eps a]> self in
  let self := <["image_size" := image_size a]> self in
  let self := <["patch_size" := patch_size a]> self in
  let self := <["num_channels" := num_channels a]> self in
  let self := <["qkv_bias" := qkv_bias a]> self in
  let self := <["out_indices" := out_indices a]> self in
  if negb (in_strings (readout_type a) readout_types)
  then Raise ValueError
  else
  let self := <["readout_type" := readout_type a]> self in
  let self := <["reassemble_factors" := reassemble_factors a]> self in
  let self := <["neck_hidden_sizes" := neck_hidden_sizes a]> self in
  let self := <["fusion_hidden_size" := fusion_hidden_size a]> self in
  let self := <["in_index" := in_index a]> self in
  let self := <["use_batch_norm_in_fusion_residual" := use_batch_norm_in_fusion_residual a]> self in
  (* auxiliary head attributes (semantic segmentation) *)
  let self := <["use_auxiliary_head" := use_auxiliary_head a]> self in
  let self := <["auxiliary_loss_weight" := auxiliary_loss_weight a]> self in
  let self := <["semantic_loss_ignore_index" := semantic_loss_ignore_index a]> self in
  let self := <["semantic_classifier_dropout" := semantic_classifier_dropout a]> self in
  Ok self.

End Init.

End DPTConfig.

(** ** [OneFormerConfig] *)

Module OneFormerConfig.

Definition model_type : string := "oneformer".
Definition backbones_supported : list string := ["swin"; "dinat"; "maskformer-swin"].

(** The default sub-records of [_setup_cfg], in the order of their
    assignments. *)
Definition default_general_config : gmap string pyval :=
  list_to_map [
    ("ignore_value", PInt 255);
    ("num_classes", PInt 150);
    ("num_queries", PInt 150);
    ("no_object_weight", PFloat 1 (-1));
    ("deep_supervision", PBool true);
    ("class_weight", PFloat 20 (-1));
    ("mask_weight", PFloat 50 (-1));
    ("dice_weight", PFloat 50 (-1));
    ("contrastive_weight", PFloat 5 (-1));
    ("contrastive_temperature", PFloat 7 (-2));
    ("train_num_points", PInt 12544);
    ("oversample_ratio", PFloat 30 (-1));
    ("importance_sample_ratio", PFloat 75 (-2));
    ("init_std", PFloat 2 (-2));
    ("init_xavier_std", PFloat 10 (-1));
    ("layer_norm_eps", PFloat 1 (-5));
    ("is_train", PBool false);
    ("use_auxiliary_loss", PBool true);
    ("output_auxiliary_logits", PBool true);
    ("strides", PList [PInt 4; PInt 8; PInt 16; PInt 32])
  ].

Definition default_backbone_kwargs : gmap string pyval :=
  list_to_map [
    ("image_size", PInt 224);
    ("in_channels", PInt 3);
    ("patch_size", PInt 4);
    ("embed_dim", PInt 96);
    ("depths", PList [PInt 2; PInt 2; PInt 6; PInt 2]);
    ("num_heads", PList [PInt 3; PInt 6; PInt 12; PInt 24]);
    ("window_size", PInt 7);
    ("drop_path_rate", PFloat 3 (-1));
    ("out_features", PList [PStr "stage1"; PStr "stage2"; PStr "stage3"; PStr "stage4"])
  ].

Definition default_text_encoder_config : gmap string pyval :=
  list_to_map [
    ("task_seq_len", PInt 77);
    ("max_seq_len", PInt 77);
    ("text_encoder_width", PInt 256);
    ("text_encoder_context_length", PInt 77);
    ("text_encoder_num_layers", PInt 6);
    ("text_encoder_vocab_size", PInt 49408);
    ("text_encoder_proj_layers", PInt 2);
    ("text_encoder_n_ctx", PInt 16)
  ].

Definition default_decoder_config : gmap string pyval :=
  list_to_map [
    ("conv_dim", PInt 256);
    ("mask_dim", PInt 256);
    ("hidden_dim", PInt 256);
    ("encoder_feedforward_dim", PInt 1024);
    ("norm", PStr "GN");
    ("encoder_layers", PInt 6);
    ("decoder_layers", PInt 10);
    ("use_task_norm", PBool true);
    ("num_heads", PInt 8);
    ("dropout", PFloat 1 (-1));
    ("dim_feedforward", PInt 2048);
    ("pre_norm", PBool false);
    ("enforce_input_proj", PBool false);
    ("query_dec_layers", PInt 2);
    ("common_stride", PInt 4)
  ].

Section Config.
(** What the class uses and these files do not define: the
    configuration objects of the backbones ([config], with their
    [model_type] attribute and their [to_dict] method), the
    constructor [MaskFormerSwinConfig], the table [CONFIG_MAPPING]
    from a model type to the [from_dict] of its configuration class,
    and [PretrainedConfig.__init__], which receives the keyword
    arguments and the attributes of [self] so far. *)
Context {config : Type}.
Variable config_model_type : config → pyval.
Variable config_to_dict : config → gmap string pyval.
Variable MaskFormerSwinConfig : gmap string pyval → result config.
Variable CONFIG_MAPPING : gmap string (gmap string pyval → result config).

(** A [backbone_config] argument: a dictionary or a configuration
    object ([isinstance(backbone_config, dict)] tells them apart). *)
Inductive backbone_arg : Type :=
  | BDict (d : gmap string pyval)
  | BConfig (c : config).

(** The values of the attributes of an instance. *)
Inductive attr : Type :=
  | AVal (v : pyval)
  | ADict (d : gmap string pyval)
  | AConfig (c : config).

Variable super_init :
  gmap string pyval → gmap string attr → result (gmap string attr).

(** [backbone_config.pop("model_type")] for a dictionary,
    [backbone_config.model_type] for a configuration object. *)
Definition backbone_model_type (backbone_config : backbone_arg) : result pyval :=
  match backbone_config with
  | BDict d => getitem d "model_type"
  | BConfig c => Ok (config_model_type c)
  end.

Definition _setup_cfg
    (general_config : option (gmap string pyval))
    (backbone_config : option backbone_arg)
    (text_encoder_config : option (gmap string pyval))
    (decoder_config : option (gmap string pyval))
  : result (gmap string pyval * config * gmap string pyval * gmap string pyval) :=
  let general_config := default default_general_config general_config in
  backbone_config ←
    match backbone_config with
    | None => MaskFormerSwinConfig default_backbone_kwargs
    | Some backbone_config =>
        ty ← backbone_model_type backbone_config;
        if negb (in_strings ty backbones_supported)
        then Raise ValueError
        else
          match backbone_config, ty with
          | BDict d, PStr ty =>
              (* [pop] has removed the key from the dictionary *)
              from_dict ← getitem CONFIG_MAPPING ty;
              from_dict (delete "model_type" d)
          | BDict d, _ => Raise ValueError    (* not reached: a supported type is a string *)
          | BConfig c, _ => Ok c
          end
    end;
  let text_encoder_config := default default_text_encoder_config text_encoder_config in
  let decoder_config := default default_decoder_config decoder_config in
  Ok (general_config, backbone_config, text_encoder_config, decoder_config).

(** [OneFormerConfig.__init__]; the result is [self.__dict__]. *)
Definition __init__
    (general_config : option (gmap string pyval))
    (backbone_config : option backbone_arg)
    (text_encoder_config : option (gmap string pyval))
    (decoder_config : option (gmap string pyval))
    (kwargs : gmap string pyval)
  : result (gmap string attr) :=
  cfgs ← _setup_cfg general_config backbone_config text_encoder_config decoder_config;
  let '(general_config, backbone_config, text_encoder_config, decoder_config) := cfgs in
  let self : gmap string attr := ∅ in
  let self := <["general_config" := ADict general_config]> self in
  let self := <["backbone_config" := AConfig backbone_config]> self in
  let self := <["text_encoder_config" := ADict text_encoder_config]> self in
  let self := <["decoder_config" := ADict decoder_config]> self in
  v ← getitem decoder_config "hidden_dim";
  let self := <["hidden_size" := AVal v]> self in
  v ← getitem decoder_config "num_heads";
  let self := <["num_attention_heads" := AVal v]> self in
  v ← getitem decoder_config "decoder_layers";
  let self := <["num_hidden_layers" := AVal v]> self in
  v ← getitem general_config "init_std";
  let self := <["init_std" := AVal v]> self in
  v ← getitem general_config "init_xavier_std";
  let self := <["init_xavier_std" := AVal v]> self in
  super_init kwargs self.

(** [OneFormerConfig.to_dict].  [copy.deepcopy] is the identity on
    values, which are immutable here.  [self.backbone_config] must
    be an object with a [to_dict] method. *)
Definition to_dict (self : gmap string attr) : result (gmap string attr) :=
  let output := self in
  match self !! "backbone_config" with
  | Some (AConfig c) =>
      let output := <["backbone_config" := ADict (config_to_dict c)]> output in
      let output := <["model_type" := AVal (PStr model_type)]> output in
      Ok output
  | Some _ => Raise (AttributeError "to_dict")
  | None => Raise (AttributeError "backbone_config")
  end.

(** The attribute [name] of [self] holds the value of [key] in the
    sub-record [d]. *)
Definition mirrors (self : gmap string attr) (name : string)
    (d : gmap string pyval) (key : string) : Prop :=
  ∃ v, d !! key = Some v ∧ self !! name = Some (AVal v).

(** A sub-record argument is omitted or has all of [keys]. *)
Definition complete (keys : list string) (d : option (gmap string pyval)) : Prop :=
  ∀ d0 k, d = Some d0 → k ∈ keys → is_Some (d0 !! k).

(** For the keyword arguments [kwargs], the initializer of the base
    class leaves the attributes [names] as it finds them. *)
Definition super_init_keeps (kwargs : gmap string pyval) (names : list string) : Prop :=
  ∀ self self' k,
    super_init kwargs self = Ok self' → k ∈ names → self' !! k = self !! k.

End Config.

Definition decoder_keys : list string := ["hidden_dim"; "num_heads"; "decoder_layers"].
Definition general_keys : list string := ["init_std"; "init_xavier_std"].

End OneFormerConfig.

(** ** Sample collaborators

    Simple stand-ins for the code outside these files, to run the
    configuration classes on concrete arguments. *)

Module Sample.

(** A configuration object: its model type and its fields. *)
Definition config : Type := string * gmap string pyval.

Definition config_model_type (c : config) : pyval := PStr c.1.

Definition config_to_dict (c : config) : gmap string pyval :=
  <["model_type" := PStr c.1]> c.2.

Definition from_dict (ty : string) (d : gmap string pyval) : result config :=
  Ok (ty, d).

Definition MaskFormerSwinConfig (kwargs : gmap string pyval) : result config :=
  from_dict "maskformer-swin" kwargs.

Definition CONFIG_MAPPING : gmap string (gmap string pyval → result config) :=
  list_to_map [
    ("swin", from_dict "swin");
    ("dinat", from_dict "dinat");
    ("maskformer-swin", from_dict "maskformer-swin")
  ].

(** A base initializer that stores every keyword argument as an
    attribute, over the attributes that are there. *)
Definition super_init {V W} (inj : V → W)
    (kwargs : gmap string V) (self : gmap string W) : result (gmap string W) :=
  Ok ((inj <$> kwargs) ∪ self).

(** A base initializer that stores the keyword arguments like
    [super_init], except that it refuses ["use_return_dict"] with
    [AttributeError]: the base class defines that name as a property
    without a setter, and stores the keyword arguments with [setattr]. *)
Definition strict_super_init {V W} (inj : V → W)
    (kwargs : gmap string V) (self : gmap string W) : result (gmap string W) :=
  match kwargs !! "use_return_dict" with
  | Some _ => Raise (AttributeError "use_return_dict")
  | None => super_init inj kwargs self
  end.

Definition kwargs : gmap string pyval := {["num_labels" := PInt 150]}.

End Sample.

(** ** Loading the weights of the checkpoint

    Lines 151-159.  [tf.train.list_variables] and
    [tf.train.load_variable] are the reader of the checkpoint: here the
    checkpoint is the list of its variables, each name with the array
    stored under it.  Variable names are ASCII. *)

(** [c.lower()] on an ASCII character. *)
Definition lower_ascii (c : ascii) : ascii :=
  let n := nat_of_ascii c in
  if (65 <=? n) && (n <=? 90) then ascii_of_nat (n + 32) else c.

(** [s.lower()] *)
Fixpoint lower (s : string) : string :=
  match s with
  | EmptyString => EmptyString
  | String c s' => String (lower_ascii c) (lower s')
  end.

(** [d[key] = value] on a dictionary kept as the list of its items: a
    key that is there keeps its place, a new key goes last. *)
Fixpoint dict_set {V} (key : string) (value : V) (d : list (string * V))
  : list (string * V) :=
  match d with
  | [] => [(key, value)]
  | (k, v) :: d' =>
      if String.eqb k key then (key, value) :: d'
      else (k, v) :: dict_set key value d'
  end.

Section Loading.
Context {A : Type}.

(** [a.squeeze()] drops the axes of length one. *)
Definition squeeze (a : ndarray A) : ndarray A :=
  NDArray (filter (λ d, d ≠ 1) (shape a)) (data a).

(** Line 156: the variables that are weights of the model. *)
Definition is_model_weight (name : string) : bool :=
  contains "model" name && negb (contains "optimizer" (lower name)).

(** One turn of [for name, shape in init_vars: ...]. *)
Definition load_step (tf_vars : list (string * ndarray A)) (nv : string * ndarray A)
  : list (string * ndarray A) :=
  if is_model_weight nv.1 then dict_set nv.1 (squeeze nv.2) tf_vars else tf_vars.

(** The loop; the result is [tf_vars.items()]. *)
Definition load_tf_vars (init_vars : list (string * ndarray A))
  : list (string * ndarray A) :=
  foldl load_step [] init_vars.

(** The name a parameter is stored under. *)
Definition target (np : string * ndarray A) : string :=
  add_prefix (rewritten_name np.1).

(** Lines 151-168: from the variables of the checkpoint to the state
    dict that is handed to [load_state_dict]. *)
Definition convert_pix2seq_state_dict (init_vars : list (string * ndarray A))
  : result (state A) :=
  convert_state_dict (load_tf_vars init_vars).

End Loading.

(** The attributes [DPTConfig.__init__] sets, in the order of its
    assignments; [is_encoder_decoder] is an argument and is not among
    them. *)
Definition DPT_attributes (a : DPTConfig.args) : list (string * pyval) :=
  [ ("hidden_size", DPTConfig.hidden_size a);
    ("num_hidden_layers", DPTConfig.num_hidden_layers a);
    ("num_attention_heads", DPTConfig.num_attention_heads a);
    ("intermediate_size", DPTConfig.intermediate_size a);
    ("hidden_act", DPTConfig.hidden_act a);
    ("hidden_dropout_prob", DPTConfig.hidden_dropout_prob a);
    ("attention_probs_dropout_prob", DPTConfig.attention_probs_dropout_prob a);
    ("initializer_range", DPTConfig.initializer_range a);
    ("layer_norm_eps", DPTConfig.layer_norm_eps a);
    ("image_size", DPTConfig.image_size a);
    ("patch_size", DPTConfig.patch_size a);
    ("num_channels", DPTConfig.num_channels a);
    ("qkv_bias", DPTConfig.qkv_bias a);
    ("out_indices", DPTConfig.out_indices a);
    ("readout_type", DPTConfig.readout_type a);
    ("reassemble_factors", DPTConfig.reassemble_factors a);
    ("neck_hidden_sizes", DPTConfig.neck_hidden_sizes a);
    ("fusion_hidden_size", DPTConfig.fusion_hidden_size a);
    ("in_index", DPTConfig.in_index a);
    ("use_batch_norm_in_fusion_residual", DPTConfig.use_batch_norm_in_fusion_residual a);
    ("use_auxiliary_head", DPTConfig.use_auxiliary_head a);
    ("auxiliary_loss_weight", DPTConfig.auxiliary_loss_weight a);
    ("semantic_loss_ignore_index", DPTConfig.semantic_loss_ignore_index a);
    ("semantic_classifier_dropout", DPTConfig.semantic_classifier_dropout a) ].

(** The names of the attributes [OneFormerConfig.__init__] sets. *)
Definition OneFormer_attributes : list string :=
  [ "general_config"; "backbone_config"; "text_encoder_config"; "decoder_config";
    "hidden_size"; "num_attention_heads"; "num_hidden_layers";
    "init_std"; "init_xavier_std" ].

(** * Properties *)

(** ** Strings *)

Lemma startswith_app p s : startswith p (p +:+ s) = true.
Proof.
  induction p as [|c p IH]; simpl; [done|].
  by rewrite Ascii.eqb_refl, IH.
Qed.

Lemma string_length_app (a b : string) :
  String.length (a +:+ b) = String.length a + String.length b.
Proof. induction a as [|c a IH]; simpl; [done|]. by rewrite <- IH. Qed.

Lemma lm_head_not_model s :
  startswith "lm_head" s = true → startswith "model." s = false.
Proof.
  destruct s as [|c s]; cbn [startswith]; [done|].
  destruct (Ascii.eqb_spec "l" c) as [<-|]; [|done].
  intros _. reflexivity.
Qed.

(** ** The prefix step *)

Lemma add_prefix_exempt n : exempt n = true → add_prefix n = n.
Proof.
  unfold exempt, add_prefix.
  destruct (startswith "lm_head" n), (contains "output_layernorm" n); simpl; done.
Qed.

Lemma add_prefix_not_exempt n : exempt n = false → add_prefix n = "model." +:+ n.
Proof.
  unfold exempt, add_prefix.
  destruct (startswith "lm_head" n), (contains "output_layernorm" n); simpl; done.
Qed.

Lemma rename_kernel_eq n :
  rename_kernel n = if contains "kernel" n then replace "kernel" "weight" n else n.
Proof. reflexivity. Qed.

Section RenameKeyName.
Context {A : Type}.
Implicit Types param : ndarray A.

(** The name [rename_key] returns does not depend on the tensor. *)
Lemma rename_key_name name param name' param' :
  rename_key name param = Ok (name', param') →
  name' = add_prefix (rewritten_name name).
Proof.
  unfold rename_key, rewritten_name.
  rewrite rename_kernel_eq.
  generalize (structural_renames name); intros n.
  unfold mbind, result_bind, rbind.
  intros H.
  repeat case_match; simplify_eq/=; done.
Qed.

(** Claim C1, as amended.  Whenever [rename_key] returns, the name it
    returns is the rewritten name with ["model."] put in front if and
    only if the rewritten name neither starts with ["lm_head"] nor
    contains ["output_layernorm"]; an exempted name is returned as it
    is.  A non-exempted result therefore starts with ["model."], and a
    result whose rewritten name starts with ["lm_head"] does not.  (An
    exempted name that contains ["output_layernorm"] is left alone, so it
    starts with ["model."] exactly when the rewritten name already did.) *)
Theorem rename_key_prefix_law name param name' param' :
  rename_key name param = Ok (name', param') →
  (name' = "model." +:+ rewritten_name name ↔ exempt (rewritten_name name) = false)
  ∧ (exempt (rewritten_name name) = true → name' = rewritten_name name)
  ∧ (exempt (rewritten_name name) = false → startswith "model." name' = true)
  ∧ (startswith "lm_head" (rewritten_name name) = true →
     startswith "model." name' = false).
Proof.
  intros Hrun. apply rename_key_name in Hrun. revert Hrun.
  generalize (rewritten_name name). intros pre Hrun.
  repeat split.
  - intros Hname. destruct (exempt pre) eqn:He; [|done].
    rewrite (add_prefix_exempt _ He) in Hrun. subst name'.
    apply (f_equal String.length) in Hname.
    rewrite string_length_app in Hname. cbn in Hname. lia.
  - intros He. by rewrite Hrun, add_prefix_not_exempt.
  - intros He. by rewrite Hrun, add_prefix_exempt.
  - intros He. rewrite Hrun, (add_prefix_not_exempt _ He).
    apply (startswith_app "model.").
  - intros Hlm. rewrite Hrun, add_prefix_exempt.
    + by apply lm_head_not_model.
    + unfold exempt. by rewrite Hlm.
Qed.

End RenameKeyName.

(** The output bias of the decoder is exempted, the stem bias is not. *)
Lemma rename_key_prefix_law_witness :
  rename_key "model/decoder/ar_decoder/Soutp_bias" (NDArray [3] [1%Z; 2%Z; 3%Z])
  = Ok ("lm_head.bias", NDArray [3] [1%Z; 2%Z; 3%Z])
  ∧ ("lm_head.bias" = "model." +:+ rewritten_name "model/decoder/ar_decoder/Soutp_bias"
     ↔ exempt (rewritten_name "model/decoder/ar_decoder/Soutp_bias") = false)
  ∧ (exempt (rewritten_name "model/decoder/ar_decoder/Soutp_bias") = true →
     "lm_head.bias" = rewritten_name "model/decoder/ar_decoder/Soutp_bias")
  ∧ (exempt (rewritten_name "model/decoder/ar_decoder/Soutp_bias") = false →
     startswith "model." "lm_head.bias" = true)
  ∧ (startswith "lm_head" (rewritten_name "model/decoder/ar_decoder/Soutp_bias") = true →
     startswith "model." "lm_head.bias" = false).
Proof.
  split; [vm_compute; reflexivity|].
  apply (rename_key_prefix_law "model/decoder/ar_decoder/Soutp_bias"
           (NDArray [3] [1%Z; 2%Z; 3%Z]) "lm_head.bias" (NDArray [3] [1%Z; 2%Z; 3%Z])).
  vm_compute. reflexivity.
Defined.

(** Claim C1 as stated fails: this name is exempted, for it contains
    ["output_layernorm"], and the name returned for it starts with
    ["model."] all the same, as the input did. *)
Lemma rename_key_prefix_counterexample :
  rename_key "model/head/output_layernorm/gamma" (NDArray [2] [1%Z; 2%Z])
  = Ok ("model.head.output_layernorm.weight", NDArray [2] [1%Z; 2%Z])
  ∧ exempt (rewritten_name "model/head/output_layernorm/gamma") = true
  ∧ startswith "model." "model.head.output_layernorm.weight" = true.
Proof. repeat split; vm_compute; reflexivity. Qed.

(** ** Arrays *)

Section Arrays.
Context {A : Type}.
Implicit Types param : ndarray A.

Lemma length_omap_total {B C} (f : B → option C) (l : list B) :
  (∀ x, x ∈ l → is_Some (f x)) → length (omap f l) = length l.
Proof.
  induction l as [|x l IH]; intros Hf; [done|].
  destruct (Hf x) as [y Hy]; [by left|].
  cbn [omap list_omap]. rewrite Hy. cbn [length]. f_equal.
  apply IH. intros z Hz. apply Hf. by right.
Qed.

(** Transposing a matrix swaps its dimensions and keeps every element. *)
Lemma np_transpose_matrix r c (d : list A) :
  length d = r * c →
  shape (np_transpose (NDArray [r; c] d)) = [c; r]
  ∧ length (data (np_transpose (NDArray [r; c] d))) = r * c.
Proof.
  intros Hlen. split; [reflexivity|].
  unfold np_transpose, permute_axes, asize, ndim. cbn [shape data].
  rewrite length_omap_total.
  - rewrite length_seq. simpl. lia.
  - intros pos Hpos. apply elem_of_seq in Hpos. simpl in Hpos.
    apply lookup_lt_is_Some. rewrite Hlen.
    cbn.
    assert (r ≠ 0 ∧ c ≠ 0) as [Hr Hc] by lia.
    pose proof (Nat.mod_upper_bound pos r Hr).
    pose proof (Nat.mod_upper_bound (pos `div` r) c Hc).
    nia.
Qed.

Lemma omap_total_lookup {B C} (f : B → option C) (l : list B) i :
  (∀ x, x ∈ l → is_Some (f x)) → omap f l !! i = l !! i ≫= f.
Proof.
  revert i. induction l as [|x l IH]; intros i Hf; [done|].
  destruct (Hf x) as [y Hy]; [by left|].
  cbn [omap list_omap]. rewrite Hy.
  destruct i as [|i]; cbn; [done|].
  apply IH. intros z Hz. apply Hf. by right.
Qed.

(** Row-major positions and multi-indices of a rank-4 array. *)
Lemma unravel_ravel4 d0 d1 d2 d3 i0 i1 i2 i3 :
  i0 < d0 → i1 < d1 → i2 < d2 → i3 < d3 →
  unravel [d0; d1; d2; d3] (ravel [d0; d1; d2; d3] [i0; i1; i2; i3]) = [i0; i1; i2; i3].
Proof.
  intros H0 H1 H2 H3. unfold unravel, ravel. cbn.
  assert (∀ q d i, i < d → (q * d + i) `mod` d = i) as Hmod.
  { intros q d i Hi. rewrite Nat.add_comm, Nat.Div0.mod_add. by apply Nat.mod_small. }
  assert (∀ q d i, i < d → (q * d + i) `div` d = q) as Hdiv.
  { intros q d i Hi. rewrite Nat.add_comm, Nat.div_add by lia.
    rewrite Nat.div_small by done. done. }
  rewrite !Hdiv, !Hmod by done.
  rewrite (Nat.mod_small i0) by done. reflexivity.
Qed.

Lemma ravel4_lt d0 d1 d2 d3 i0 i1 i2 i3 :
  i0 < d0 → i1 < d1 → i2 < d2 → i3 < d3 →
  ravel [d0; d1; d2; d3] [i0; i1; i2; i3] < d0 * (d1 * (d2 * (d3 * 1))).
Proof.
  intros H0 H1 H2 H3. unfold ravel. cbn.
  assert (∀ q n d i, q < n → i < d → q * d + i < n * d) as Hstep by (intros; nia).
  rewrite Nat.mul_1_r, !Nat.mul_assoc.
  by repeat apply Hstep.
Qed.

Lemma unravel4_lt d0 d1 d2 d3 pos :
  pos < d0 * (d1 * (d2 * (d3 * 1))) →
  ∃ i0 i1 i2 i3,
    unravel [d0; d1; d2; d3] pos = [i0; i1; i2; i3]
    ∧ i0 < d0 ∧ i1 < d1 ∧ i2 < d2 ∧ i3 < d3.
Proof.
  intros Hpos. unfold unravel. cbn.
  assert (d0 ≠ 0 ∧ d1 ≠ 0 ∧ d2 ≠ 0 ∧ d3 ≠ 0) as (? & ? & ? & ?) by lia.
  eexists _, _, _, _. split; [reflexivity|].
  repeat split; by apply Nat.mod_upper_bound.
Qed.

(** The element at [(k, b, i, j)] of the permuted array is the element
    at [(i, j, b, k)] of the array. *)
Lemma permute_axes_conv_lookup param h w c o i j b k :
  shape param = [h; w; c; o] → well_formed param →
  i < h → j < w → b < c → k < o →
  data (permute_axes [3; 2; 0; 1] param) !! ravel [o; c; h; w] [k; b; i; j]
  = data param !! ravel [h; w; c; o] [i; j; b; k].
Proof.
  intros Hshape Hwf Hi Hj Hb Hk. destruct param as [shp d].
  unfold permute_axes. unfold well_formed, asize in *. cbn [shape data] in *. subst shp.
  cbn [size_of foldr fmap list_fmap lookup_total list_lookup_total] in *.
  rewrite omap_total_lookup.
  - rewrite lookup_seq_lt.
    2:{ pose proof (ravel4_lt o c h w k b i j Hk Hb Hi Hj). lia. }
    cbn [mbind option_bind Nat.add]. by rewrite unravel_ravel4.
  - intros pos [_ Hpos]%elem_of_seq.
    destruct (unravel4_lt o c h w pos) as (i0 & i1 & i2 & i3 & -> & ? & ? & ? & ?);
      [lia|].
    apply lookup_lt_is_Some. rewrite Hwf.
    apply (ravel4_lt h w c o i2 i3 i1 i0); done.
Qed.

Lemma permute_axes_conv_well_formed param h w c o :
  shape param = [h; w; c; o] → well_formed param →
  well_formed (permute_axes [3; 2; 0; 1] param)
  ∧ asize (permute_axes [3; 2; 0; 1] param) = asize param.
Proof.
  intros Hshape Hwf. destruct param as [shp d].
  unfold permute_axes. unfold well_formed, asize in *. cbn [shape data] in *. subst shp.
  cbn [size_of foldr fmap list_fmap lookup_total list_lookup_total] in *.
  split; [|lia].
  rewrite length_omap_total.
  - rewrite length_seq. lia.
  - intros pos [_ Hpos]%elem_of_seq.
    destruct (unravel4_lt o c h w pos) as (i0 & i1 & i2 & i3 & -> & ? & ? & ? & ?);
      [lia|].
    apply lookup_lt_is_Some. rewrite Hwf.
    apply (ravel4_lt h w c o i2 i3 i1 i0); done.
Qed.

(** A reshape to [k] rows succeeds when [k] divides the size. *)
Lemma np_reshape_rows_ok k m param :
  0 < k → asize param = k * m →
  np_reshape_rows k param = Ok (NDArray [k; m] (data param)).
Proof.
  intros Hk Hsize. unfold np_reshape_rows. rewrite Hsize.
  replace (k =? 0) with false by (symmetry; apply Nat.eqb_neq; lia).
  rewrite Nat.mul_comm, Nat.Div0.mod_mul, Nat.div_mul by lia.
  reflexivity.
Qed.

End Arrays.

(** ** The paths through [rename_key] *)

Section RenameKeyPaths.
Context {A : Type}.
Implicit Types param : ndarray A.

(** The path of a name without the kernel marker that is no query, key
    or value bias: the tensor is returned as it came. *)
Lemma rename_key_untouched name param :
  contains "kernel" (structural_renames name) = false →
  is_qkv (structural_renames name) && contains "bias" (structural_renames name) = false →
  rename_key name param
  = Ok (add_prefix (rename_gamma_beta (structural_renames name)), param).
Proof.
  unfold rename_key. generalize (structural_renames name). intros n Hk Hq.
  rewrite Hk. destruct (is_out_proj n), (is_qkv n); simpl in *;
    try rewrite Hq; reflexivity.
Qed.

(** The path of a convolution kernel. *)
Lemma rename_key_conv_kernel name param :
  is_out_proj (structural_renames name) = false →
  is_qkv (structural_renames name) = false →
  contains "kernel" (structural_renames name) = true →
  contains "patch_embeddings" (replace "kernel" "weight" (structural_renames name)) = true →
  rename_key name param =
    (p ← np_transpose_axes [3; 2; 0; 1] param;
     Ok (add_prefix (rename_gamma_beta
           (replace "kernel" "weight" (structural_renames name))), p)).
Proof.
  unfold rename_key. generalize (structural_renames name). intros n Ho Hq Hk Hp.
  rewrite Ho, Hq, Hk, Hp. simpl.
  destruct (np_transpose_axes _ _); reflexivity.
Qed.

(** The path of a query, key or value kernel. *)
Lemma rename_key_qkv_kernel name param :
  is_qkv (structural_renames name) = true →
  contains "kernel" (structural_renames name) = true →
  contains "patch_embeddings" (replace "kernel" "weight" (structural_renames name)) = false →
  rename_key name param =
    (p ← (if is_out_proj (structural_renames name)
          then d ← shape_last param; np_reshape_rows d param
          else Ok param);
     d ← shape_first p;
     p ← np_reshape_rows d p;
     Ok (add_prefix (rename_gamma_beta
           (replace "kernel" "weight" (structural_renames name))), np_transpose p)).
Proof.
  unfold rename_key. generalize (structural_renames name). intros n Hq Hk Hp.
  rewrite Hq, Hk, Hp.
  destruct (is_out_proj n); simpl; unfold mbind, result_bind, rbind;
    repeat case_match; simplify_eq; reflexivity.
Qed.

End RenameKeyPaths.

(** Evaluate the name of a result on a concrete input name. *)
Ltac eval_name :=
  match goal with
  | |- Ok (?n, _) = _ =>
      let n' := eval vm_compute in n in
      replace n with n' by (vm_compute; reflexivity)
  end.

Section RenameKeyTensor.
Context {A : Type}.
Implicit Types param : ndarray A.

(** Claim C2, as amended.  For a rank-3 tensor of shape [(H, D, O)]
    whose rewritten name marks a query, key or value projection and
    carries the ["kernel"] marker (and does not become a
    ["patch_embeddings"] name), [rename_key] returns a rank-2 tensor with
    the same number of elements: of shape [(D·O, H)] when [0 < H] and
    the name carries no output-projection marker (the trailing axes are
    collapsed and the matrix transposed), and of shape [(H·D, O)] when
    [0 < O] and the name carries an output-projection marker as well. *)
Theorem rename_key_qkv_weight_shape name param H D O :
  is_qkv (structural_renames name) = true →
  contains "kernel" (structural_renames name) = true →
  contains "patch_embeddings" (replace "kernel" "weight" (structural_renames name)) = false →
  shape param = [H; D; O] → well_formed param →
  (is_out_proj (structural_renames name) = false → 0 < H →
     ∃ name' param',
       rename_key name param = Ok (name', param')
       ∧ shape param' = [D * O; H]
       ∧ asize param' = asize param
       ∧ length (data param') = length (data param))
  ∧ (is_out_proj (structural_renames name) = true → 0 < O →
     ∃ name' param',
       rename_key name param = Ok (name', param')
       ∧ shape param' = [H * D; O]
       ∧ asize param' = asize param
       ∧ length (data param') = length (data param)).
Proof.
  intros Hq Hk Hp Hshape Hwf.
  pose proof (rename_key_qkv_kernel name param Hq Hk Hp) as Hrun.
  revert Hrun. clear Hq Hk Hp.
  generalize (rename_key name param). generalize (structural_renames name).
  intros n r Hrun.
  destruct param as [shp d]. unfold well_formed, asize in *.
  cbn [shape data] in *. subst shp. cbn [size_of foldr] in Hwf.
  split; intros Ho Hpos; rewrite Ho in Hrun.
  - assert (np_reshape_rows H (NDArray [H; D; O] d) = Ok (NDArray [H; D * O] d)) as Hre.
    { apply np_reshape_rows_ok; [done|]. unfold asize. cbn. lia. }
    destruct (np_transpose_matrix H (D * O) d) as [Hs Hl]; [lia|].
    eexists _, _. split; [|split; [|split]].
    + rewrite Hrun. cbn. unfold shape_first. cbn. rewrite Hre. reflexivity.
    + exact Hs.
    + unfold asize. rewrite Hs. cbn. lia.
    + rewrite Hl. cbn. lia.
  - assert (np_reshape_rows O (NDArray [H; D; O] d) = Ok (NDArray [O; H * D] d)) as Hre1.
    { apply np_reshape_rows_ok; [done|]. unfold asize. cbn. lia. }
    assert (np_reshape_rows O (NDArray [O; H * D] d) = Ok (NDArray [O; H * D] d)) as Hre2.
    { apply (np_reshape_rows_ok O (H * D)); [done|]. unfold asize. cbn. lia. }
    destruct (np_transpose_matrix O (H * D) d) as [Hs Hl]; [lia|].
    eexists _, _. split; [|split; [|split]].
    + rewrite Hrun. unfold shape_last. cbn. rewrite Hre1. cbn.
      unfold shape_first. cbn. rewrite Hre2. reflexivity.
    + exact Hs.
    + unfold asize. rewrite Hs. cbn. lia.
    + rewrite Hl. cbn. lia.
Qed.

(** An array of shape [(h, w, i, o)] has its axes permuted to
    [(o, i, h, w)]. *)
Lemma np_transpose_axes_conv param h w i o :
  shape param = [h; w; i; o] →
  np_transpose_axes [3; 2; 0; 1] param = Ok (permute_axes [3; 2; 0; 1] param)
  ∧ shape (permute_axes [3; 2; 0; 1] param) = [o; i; h; w].
Proof.
  intros Hshape. unfold np_transpose_axes, ndim. rewrite Hshape. split.
  - rewrite bool_decide_eq_true_2; [done|].
    apply (bool_decide_unpack _). vm_compute. exact I.
  - unfold permute_axes. cbn [shape]. rewrite Hshape. reflexivity.
Qed.

(** Claim C7.  The stem convolution kernel of shape [(h, w, 3, 768)]
    becomes ["model.encoder.embeddings.patch_embeddings.projection.weight"]
    with its axes permuted to [(768, 3, h, w)]: the element at
    [(o, c, i, j)] of the result is the element at [(i, j, c, o)] of the
    kernel.  The stem bias becomes the bias of the same projection, with
    the ["model."] prefix and the tensor as it came. *)
Theorem rename_key_stem_conv (kernel bias : ndarray A) h w :
  shape kernel = [h; w; 3; 768] →
  shape bias = [768] →
  (∃ kernel',
     rename_key "model/encoder/stem_conv/kernel" kernel
     = Ok ("model.encoder.embeddings.patch_embeddings.projection.weight", kernel')
     ∧ kernel' = permute_axes [3; 2; 0; 1] kernel
     ∧ shape kernel' = [768; 3; h; w]
     ∧ (well_formed kernel →
        well_formed kernel' ∧ asize kernel' = asize kernel
        ∧ ∀ i j c o, i < h → j < w → c < 3 → o < 768 →
            data kernel' !! ravel [768; 3; h; w] [o; c; i; j]
            = data kernel !! ravel [h; w; 3; 768] [i; j; c; o]))
  ∧ rename_key "model/encoder/stem_conv/bias" bias
    = Ok ("model.encoder.embeddings.patch_embeddings.projection.bias", bias).
Proof.
  intros Hk Hb. split.
  - destruct (np_transpose_axes_conv kernel h w 3 768 Hk) as [Hrun Hshape].
    eexists. split; [|split; [reflexivity|split; [exact Hshape|]]].
    2:{ intros Hwf.
        destruct (permute_axes_conv_well_formed kernel h w 3 768 Hk Hwf) as [Hwf' Hsize].
        split; [exact Hwf'|]. split; [exact Hsize|].
        intros i j c o Hi Hj Hc Ho.
        by apply permute_axes_conv_lookup. }
    rewrite rename_key_conv_kernel by (vm_compute; reflexivity).
    rewrite Hrun. cbn [mbind result_bind rbind].
    eval_name. reflexivity.
  - rewrite rename_key_untouched by (vm_compute; reflexivity).
    eval_name. reflexivity.
Qed.

End RenameKeyTensor.

Lemma rename_key_qkv_weight_shape_witness :
  is_qkv (structural_renames "model/decoder/decoder/dec_layers/0/self_mha/_query_dense/kernel") = true
  ∧ shape (NDArray [2; 3; 5] (seq 0 30)) = [2; 3; 5]
  ∧ well_formed (NDArray [2; 3; 5] (seq 0 30))
  ∧ ∃ name' param',
      rename_key "model/decoder/decoder/dec_layers/0/self_mha/_query_dense/kernel"
        (NDArray [2; 3; 5] (seq 0 30)) = Ok (name', param')
      ∧ shape param' = [3 * 5; 2]
      ∧ asize param' = asize (NDArray [2; 3; 5] (seq 0 30))
      ∧ length (data param') = length (data (NDArray [2; 3; 5] (seq 0 30))).
Proof.
  split; [vm_compute; reflexivity|].
  split; [reflexivity|]. split; [reflexivity|].
  apply (rename_key_qkv_weight_shape
           "model/decoder/decoder/dec_layers/0/self_mha/_query_dense/kernel"
           (NDArray [2; 3; 5] (seq 0 30)) 2 3 5);
    first [vm_compute; reflexivity | lia].
Defined.

(** Claim C2 as stated fails: a query kernel of shape [(2, 3, 5)] comes
    back with shape [(15, 2)], which is neither [(2·3, 5)] nor
    [(3, 2·5)]. *)
Lemma rename_key_qkv_shape_counterexample :
  ∃ param',
    rename_key "model/encoder/transformer_encoder/enc_layers/0/mha/_query_dense/kernel"
      (NDArray [2; 3; 5] (seq 0 30))
    = Ok ("model.encoder.layer.0.attention.attention.query.weight", param')
    ∧ shape param' = [15; 2]
    ∧ shape param' ≠ [2 * 3; 5]
    ∧ shape param' ≠ [3; 2 * 5].
Proof. eexists. split; [vm_compute; reflexivity|]. cbn. by repeat split. Qed.

Lemma rename_key_stem_conv_witness :
  shape (NDArray [1; 2; 3; 768] (replicate 4608 0%Z)) = [1; 2; 3; 768]
  ∧ shape (NDArray [768] (replicate 768 0%Z)) = [768]
  ∧ (∃ kernel',
       rename_key "model/encoder/stem_conv/kernel" (NDArray [1; 2; 3; 768] (replicate 4608 0%Z))
       = Ok ("model.encoder.embeddings.patch_embeddings.projection.weight", kernel')
       ∧ shape kernel' = [768; 3; 1; 2])
  ∧ rename_key "model/encoder/stem_conv/bias" (NDArray [768] (replicate 768 0%Z))
    = Ok ("model.encoder.embeddings.patch_embeddings.projection.bias",
          NDArray [768] (replicate 768 0%Z)).
Proof.
  split; [reflexivity|]. split; [reflexivity|].
  destruct (rename_key_stem_conv (NDArray [1; 2; 3; 768] (replicate 4608 0%Z))
              (NDArray [768] (replicate 768 0%Z)) 1 2 eq_refl eq_refl)
    as [(kernel' & Hrun & _ & Hshape & _) Hbias].
  split; [exists kernel'; split; [exact Hrun|exact Hshape]|exact Hbias].
Defined.

(** ** The loop of the driver and the tying step *)

Section Tying.
Context {A : Type}.

(** One turn of the loop. *)
Lemma rename_keys_cons name param rest (st : state A) :
  rename_keys ((name, param) :: rest) st =
  match rename_key name param with
  | Ok np =>
      rename_keys rest
        (State (tensors st ++ [np.2]) (<[np.1 := length (tensors st)]> (state_dict st)))
  | Raise e => Raise e
  end.
Proof. reflexivity. Qed.

Lemma rename_keys_addresses_valid tf_vars (st st' : state A) :
  rename_keys tf_vars st = Ok st' → addresses_valid st → addresses_valid st'.
Proof.
  revert st. induction tf_vars as [|[name param] rest IH]; intros st Hrun Hval.
  - by simplify_eq/=.
  - rewrite rename_keys_cons in Hrun.
    destruct (rename_key name param) as [[name' param']|e]; [|done].
    apply IH in Hrun; [done|].
    intros k addr. cbn [state_dict tensors fst snd].
    rewrite length_app. cbn [length].
    destruct (decide (name' = k)) as [->|Hne].
    + rewrite lookup_insert_eq. intros [= <-]. lia.
    + rewrite lookup_insert_ne by done. intros Hk%Hval. lia.
Qed.

(** The tensors the loop creates are the results of [rename_key] on
    the parameters, one by one and in their order: a call sees nothing
    of what the loop has collected so far. *)
Lemma rename_keys_results tf_vars (st st' : state A) :
  rename_keys tf_vars st = Ok st' →
  ∃ rs, Forall2 (λ np r, rename_key np.1 np.2 = Ok r) tf_vars rs
        ∧ tensors st' = tensors st ++ rs.*2.
Proof.
  revert st. induction tf_vars as [|[name param] rest IH]; intros st Hrun.
  - exists []. split; [constructor|]. cbn in *. simplify_eq. by rewrite app_nil_r.
  - rewrite rename_keys_cons in Hrun.
    destruct (rename_key name param) as [r|e] eqn:Hkey; [|done].
    apply IH in Hrun as (rs & Hrs & Htensors).
    exists (r :: rs). split; [by constructor|].
    rewrite Htensors. cbn [tensors fmap list_fmap]. by rewrite <- app_assoc.
Qed.

(** Claim C9.  Once every parameter is rewritten and collected, the
    driver sets ["lm_head.weight"] to the address stored under
    ["model.decoder.embed_tokens.weight"]: no tensor is created, no other
    entry changes, and the two entries are equal and denote the same
    tensor.  (Without that entry the lookup raises [KeyError].) *)
Theorem convert_state_dict_ties_lm_head tf_vars (st : state A) :
  rename_keys tf_vars (State [] ∅) = Ok st →
  (∀ addr,
     state_dict st !! "model.decoder.embed_tokens.weight" = Some addr →
     ∃ st',
       convert_state_dict tf_vars = Ok st'
       ∧ tensors st' = tensors st
       ∧ state_dict st' = <["lm_head.weight" := addr]> (state_dict st)
       ∧ state_dict st' !! "lm_head.weight" = Some addr
       ∧ state_dict st' !! "model.decoder.embed_tokens.weight" = Some addr
       ∧ is_Some (entry st' "lm_head.weight")
       ∧ entry st' "lm_head.weight" = entry st' "model.decoder.embed_tokens.weight")
  ∧ (state_dict st !! "model.decoder.embed_tokens.weight" = None →
     convert_state_dict tf_vars = Raise (KeyError "model.decoder.embed_tokens.weight")).
Proof.
  intros Hrun. unfold convert_state_dict. rewrite Hrun.
  cbn [mbind result_bind rbind]. unfold tie_lm_head. split.
  - intros addr Haddr. rewrite Haddr. eexists. split; [reflexivity|].
    cbn [tensors state_dict].
    assert (addr < length (tensors st)) as Hlt.
    { eapply rename_keys_addresses_valid; [exact Hrun| |exact Haddr].
      intros k a. cbn. by rewrite lookup_empty. }
    assert (<["lm_head.weight" := addr]> (state_dict st)
              !! "model.decoder.embed_tokens.weight" = Some addr) as Hemb.
    { by rewrite lookup_insert_ne. }
    repeat split.
    + apply lookup_insert_eq.
    + exact Hemb.
    + unfold entry. cbn [tensors state_dict]. rewrite lookup_insert_eq.
      cbn. by apply lookup_lt_is_Some.
    + unfold entry. cbn [tensors state_dict]. by rewrite lookup_insert_eq, Hemb.
  - intros Hnone. by rewrite Hnone.
Qed.

End Tying.

(** ** [DPTConfig] *)

Section DPTFacts.

(** Claim C3.  The initializer of the base class runs first, on the
    keyword arguments: if it raises, construction raises that
    exception, whatever [readout_type] is.  If it accepts them,
    construction succeeds for ["ignore"], ["add"] and ["project"], and
    keeps the value, and raises [ValueError] for every other string,
    whatever the other named arguments are. *)
Theorem DPTConfig_readout_type super_init (a : DPTConfig.args) kwargs r :
  DPTConfig.readout_type a = PStr r →
  (∀ e, super_init kwargs ∅ = Raise e →
        DPTConfig.__init__ super_init a kwargs = Raise e)
  ∧ (succeeds (super_init kwargs ∅) →
     (r = "ignore" ∨ r = "add" ∨ r = "project" →
        ∃ self, DPTConfig.__init__ super_init a kwargs = Ok self
                ∧ self !! "readout_type" = Some (PStr r))
     ∧ (r ≠ "ignore" → r ≠ "add" → r ≠ "project" →
        DPTConfig.__init__ super_init a kwargs = Raise ValueError)).
Proof.
  intros Hr. unfold DPTConfig.__init__. split.
  - by intros e ->.
  - intros [base ->]. rewrite Hr.
    cbn [mbind result_bind rbind in_strings]. split.
    + intros Hin. rewrite bool_decide_eq_true_2.
      * cbn [negb]. eexists. split; [reflexivity|].
        repeat (rewrite lookup_insert_ne by done). apply lookup_insert_eq.
      * unfold DPTConfig.readout_types. rewrite !elem_of_cons. tauto.
    + intros H1 H2 H3. rewrite bool_decide_eq_false_2; [reflexivity|].
      unfold DPTConfig.readout_types. rewrite !elem_of_cons, elem_of_nil. tauto.
Qed.

End DPTFacts.

(** ** [OneFormerConfig] *)

(** Membership in a list that is written out. *)
Ltac solve_elem :=
  unfold OneFormerConfig.decoder_keys, OneFormerConfig.general_keys;
  cbn [app]; solve [repeat first [left | right]].

Lemma getitem_Some {V} (d : gmap string V) k v : d !! k = Some v → getitem d k = Ok v.
Proof. unfold getitem. by intros ->. Qed.

Lemma getitem_None {V} (d : gmap string V) k : d !! k = None → getitem d k = Raise (KeyError k).
Proof. unfold getitem. by intros ->. Qed.

Lemma getitem_Ok {V} (d : gmap string V) k v : getitem d k = Ok v → d !! k = Some v.
Proof. unfold getitem. destruct (d !! k); by intros [= <-]. Qed.

Section OneFormerFacts.
Import OneFormerConfig.
Context {config : Type}.
Variable config_model_type : config → pyval.
Variable config_to_dict : config → gmap string pyval.
Variable MaskFormerSwinConfig : gmap string pyval → result config.
Variable CONFIG_MAPPING : gmap string (gmap string pyval → result config).
Variable super_init :
  gmap string pyval → gmap string (@attr config) → result (gmap string (@attr config)).

#[local] Abbreviation setup :=
  (_setup_cfg config_model_type MaskFormerSwinConfig CONFIG_MAPPING).
#[local] Abbreviation init :=
  (__init__ config_model_type MaskFormerSwinConfig CONFIG_MAPPING super_init).

(** The sub-records [_setup_cfg] returns for supplied arguments are
    the arguments themselves. *)
Lemma setup_cfg_resolves gen bb txt dec g b t d :
  setup gen bb txt dec = Ok (g, b, t, d) →
  g = default default_general_config gen
  ∧ t = default default_text_encoder_config txt
  ∧ d = default default_decoder_config dec.
Proof.
  unfold _setup_cfg. intros H.
  destruct (match bb with Some _ => _ | None => _ end);
    cbn [mbind result_bind rbind] in H; by simplify_eq.
Qed.

Lemma default_decoder_complete k :
  k ∈ decoder_keys → is_Some (default_decoder_config !! k).
Proof.
  unfold decoder_keys. rewrite !elem_of_cons, elem_of_nil.
  intros [->|[->|[->|[]]]]; vm_compute; eauto.
Qed.

Lemma default_general_complete k :
  k ∈ general_keys → is_Some (default_general_config !! k).
Proof.
  unfold general_keys. rewrite !elem_of_cons, elem_of_nil.
  intros [->|[->|[]]]; vm_compute; eauto.
Qed.

Lemma complete_default keys dflt d :
  (∀ k, k ∈ keys → is_Some (dflt !! k)) →
  complete keys d → ∀ k, k ∈ keys → is_Some (default dflt d !! k).
Proof.
  intros Hd Hc k Hk. destruct d as [d0|]; cbn; [by eapply Hc|by apply Hd].
Qed.

(** What [__init__] does once [_setup_cfg] has returned. *)
Lemma init_after_setup gen bb txt dec kwargs g b t d :
  setup gen bb txt dec = Ok (g, b, t, d) →
  init gen bb txt dec kwargs =
    (v1 ← getitem d "hidden_dim";
     v2 ← getitem d "num_heads";
     v3 ← getitem d "decoder_layers";
     v4 ← getitem g "init_std";
     v5 ← getitem g "init_xavier_std";
     super_init kwargs
       (<["init_xavier_std" := AVal v5]>
        (<["init_std" := AVal v4]>
         (<["num_hidden_layers" := AVal v3]>
          (<["num_attention_heads" := AVal v2]>
           (<["hidden_size" := AVal v1]>
            (<["decoder_config" := ADict d]>
             (<["text_encoder_config" := ADict t]>
              (<["backbone_config" := AConfig b]>
               (<["general_config" := ADict g]> ∅)))))))))).
Proof. intros H. unfold __init__. rewrite H. reflexivity. Qed.

(** The attributes a successful [__init__] had set when it called the
    initializer of the base class. *)
Lemma init_Ok gen bb txt dec kwargs g b t d self :
  setup gen bb txt dec = Ok (g, b, t, d) →
  init gen bb txt dec kwargs = Ok self →
  ∃ own,
    super_init kwargs own = Ok self
    ∧ own !! "backbone_config" = Some (AConfig b)
    ∧ mirrors own "hidden_size" d "hidden_dim"
    ∧ mirrors own "num_attention_heads" d "num_heads"
    ∧ mirrors own "num_hidden_layers" d "decoder_layers"
    ∧ mirrors own "init_std" g "init_std"
    ∧ mirrors own "init_xavier_std" g "init_xavier_std".
Proof.
  intros Hsetup. rewrite (init_after_setup _ _ _ _ _ _ _ _ _ Hsetup).
  destruct (getitem d "hidden_dim") as [v1|] eqn:H1; [|done].
  destruct (getitem d "num_heads") as [v2|] eqn:H2; [|done].
  destruct (getitem d "decoder_layers") as [v3|] eqn:H3; [|done].
  destruct (getitem g "init_std") as [v4|] eqn:H4; [|done].
  destruct (getitem g "init_xavier_std") as [v5|] eqn:H5; [|done].
  cbn [mbind result_bind rbind]. intros Hsuper.
  apply getitem_Ok in H1, H2, H3, H4, H5.
  eexists. split; [exact Hsuper|]. unfold mirrors.
  split; [by simplify_map_eq|].
  repeat split; eexists; (split; [eassumption|by simplify_map_eq]).
Qed.

(** Claim C6.  For a constructed configuration whose backbone is the
    object [b], [to_dict] returns a dictionary whose ["backbone_config"]
    entry is the dictionary [b.to_dict()], not [b] itself, and whose
    ["model_type"] entry is ["oneformer"]; every other entry is that of
    the instance, whatever it is. *)
Theorem OneFormerConfig_to_dict gen bb txt dec kwargs g b t d self :
  setup gen bb txt dec = Ok (g, b, t, d) →
  init gen bb txt dec kwargs = Ok self →
  super_init_keeps super_init kwargs ["backbone_config"] →
  self !! "backbone_config" = Some (AConfig b)
  ∧ ∃ output,
      to_dict config_to_dict self = Ok output
      ∧ output !! "backbone_config" = Some (ADict (config_to_dict b))
      ∧ output !! "model_type" = Some (AVal (PStr "oneformer"))
      ∧ ∀ k, k ≠ "backbone_config" → k ≠ "model_type" → output !! k = self !! k.
Proof.
  intros Hsetup Hinit Hkeep.
  destruct (init_Ok _ _ _ _ _ _ _ _ _ _ Hsetup Hinit) as (own & Hsuper & Hb & _).
  assert (self !! "backbone_config" = Some (AConfig b)) as Hself.
  { rewrite (Hkeep _ _ _ Hsuper); [done|solve_elem]. }
  split; [done|]. unfold to_dict. rewrite Hself.
  eexists. split; [reflexivity|]. repeat split.
  - by rewrite lookup_insert_ne, lookup_insert_eq.
  - by rewrite lookup_insert_eq.
  - intros k Hk1 Hk2. by rewrite !lookup_insert_ne.
Qed.


End OneFormerFacts.

(** ** Construction of a [OneFormerConfig] *)

Section OneFormerConstruction.
Import OneFormerConfig.
Context {config : Type}.
Variable config_model_type : config → pyval.
Variable MaskFormerSwinConfig : gmap string pyval → result config.
Variable CONFIG_MAPPING : gmap string (gmap string pyval → result config).
Variable super_init :
  gmap string pyval → gmap string (@attr config) → result (gmap string (@attr config)).

#[local] Abbreviation setup :=
  (_setup_cfg config_model_type MaskFormerSwinConfig CONFIG_MAPPING).
#[local] Abbreviation init :=
  (__init__ config_model_type MaskFormerSwinConfig CONFIG_MAPPING super_init).

(** [_setup_cfg] on a supplied backbone whose model type is read as [v]. *)
Lemma setup_supplied_backbone gen bb txt dec v :
  (∃ d0, bb = BDict d0 ∧ d0 !! "model_type" = Some v)
  ∨ (∃ c, bb = BConfig c ∧ config_model_type c = v) →
  setup gen (Some bb) txt dec =
  if in_strings v backbones_supported
  then
    b ← match bb, v with
        | BDict d0, PStr ty =>
            from_dict ← getitem CONFIG_MAPPING ty; from_dict (delete "model_type" d0)
        | BDict d0, _ => Raise ValueError
        | BConfig c, _ => Ok c
        end;
    Ok (default default_general_config gen, b,
        default default_text_encoder_config txt,
        default default_decoder_config dec)
  else Raise ValueError.
Proof using Type.
  intros [(d0 & -> & Hv)|(c & -> & Hv)]; unfold _setup_cfg, backbone_model_type.
  - rewrite (getitem_Some _ _ _ Hv). cbn [mbind result_bind rbind].
    by destruct (in_strings v backbones_supported).
  - rewrite Hv. cbn [mbind result_bind rbind].
    by destruct (in_strings v backbones_supported).
Qed.

(** What a successful construction has gone through. *)
Lemma init_succeeds_inv gen bb txt dec kwargs :
  succeeds (init gen bb txt dec kwargs) →
  ∃ g b t d,
    setup gen bb txt dec = Ok (g, b, t, d)
    ∧ (∀ k, k ∈ decoder_keys → is_Some (d !! k))
    ∧ (∀ k, k ∈ general_keys → is_Some (g !! k))
    ∧ ∃ own, succeeds (super_init kwargs own).
Proof using Type.
  intros Hinit.
  destruct (setup gen bb txt dec) as [[[[g b] t] d]|e] eqn:Hsetup;
    [|unfold __init__ in Hinit; rewrite Hsetup in Hinit; by destruct Hinit].
  rewrite (init_after_setup _ _ _ _ _ _ _ _ _ _ _ _ _ Hsetup) in Hinit.
  exists g, b, t, d. split; [done|].
  unfold getitem in Hinit.
  destruct (d !! "hidden_dim") eqn:H1; [|by destruct Hinit].
  destruct (d !! "num_heads") eqn:H2; [|by destruct Hinit].
  destruct (d !! "decoder_layers") eqn:H3; [|by destruct Hinit].
  destruct (g !! "init_std") eqn:H4; [|by destruct Hinit].
  destruct (g !! "init_xavier_std") eqn:H5; [|by destruct Hinit].
  cbn [mbind result_bind rbind] in Hinit.
  split; [|split; [|by eexists]].
  - intros k. unfold decoder_keys. rewrite !elem_of_cons, elem_of_nil.
    intros [->|[->|[->|[]]]]; by eexists.
  - intros k. unfold general_keys. rewrite !elem_of_cons, elem_of_nil.
    intros [->|[->|[]]]; by eexists.
Qed.

(** Claim C4.  With a supplied backbone whose model type reads [v]
    (the ["model_type"] entry of a dictionary, the [model_type] of a
    configuration object): if [v] is none of ["swin"], ["dinat"],
    ["maskformer-swin"], construction raises [ValueError], whatever the
    other arguments are.  If [v] is one of them, the check passes, and
    construction succeeds when the steps after it do: for a dictionary,
    [CONFIG_MAPPING] has the type and its [from_dict] accepts the
    dictionary; a supplied [general_config] and [decoder_config] have
    the keys [__init__] reads; the initializer of the base class
    accepts the keyword arguments.  A successful construction has gone
    through each of these. *)
Theorem OneFormerConfig_backbone_validation gen bb txt dec kwargs v :
  (∃ d0, bb = BDict d0 ∧ d0 !! "model_type" = Some v)
  ∨ (∃ c, bb = BConfig c ∧ config_model_type c = v) →
  ((∀ ty, v = PStr ty → ty ≠ "swin" ∧ ty ≠ "dinat" ∧ ty ≠ "maskformer-swin") →
     init gen (Some bb) txt dec kwargs = Raise ValueError)
  ∧ (∀ ty,
       v = PStr ty → ty = "swin" ∨ ty = "dinat" ∨ ty = "maskformer-swin" →
       ((∀ d0, bb = BDict d0 →
           ∃ from_dict, CONFIG_MAPPING !! ty = Some from_dict
                        ∧ succeeds (from_dict (delete "model_type" d0))) →
        complete ["init_std"; "init_xavier_std"] gen →
        complete ["hidden_dim"; "num_heads"; "decoder_layers"] dec →
        (∀ self, succeeds (super_init kwargs self)) →
        succeeds (init gen (Some bb) txt dec kwargs))
       ∧ (succeeds (init gen (Some bb) txt dec kwargs) →
          (∀ d0, bb = BDict d0 →
             ∃ from_dict, CONFIG_MAPPING !! ty = Some from_dict
                          ∧ succeeds (from_dict (delete "model_type" d0)))
          ∧ complete ["init_std"; "init_xavier_std"] gen
          ∧ complete ["hidden_dim"; "num_heads"; "decoder_layers"] dec
          ∧ ∃ self, succeeds (super_init kwargs self))).
Proof using Type.
  intros Hread. pose proof (setup_supplied_backbone gen bb txt dec v Hread) as Hsetup.
  split.
  - intros Hout. unfold __init__. rewrite Hsetup.
    assert (in_strings v backbones_supported = false) as ->; [|reflexivity].
    destruct v; try reflexivity. cbn [in_strings].
    apply bool_decide_eq_false_2. unfold backbones_supported.
    rewrite !elem_of_cons, elem_of_nil. specialize (Hout _ eq_refl). tauto.
  - intros ty -> Hin.
    assert (in_strings (PStr ty) backbones_supported = true) as Hsup.
    { cbn [in_strings]. apply bool_decide_eq_true_2. unfold backbones_supported.
      rewrite !elem_of_cons. tauto. }
    rewrite Hsup in Hsetup. split.
    + intros Hmap Hgen Hdec Hsuper.
      assert (∃ b, setup gen (Some bb) txt dec
                   = Ok (default default_general_config gen, b,
                         default default_text_encoder_config txt,
                         default default_decoder_config dec)) as [b Hb].
      { rewrite Hsetup. destruct bb as [d0|c]; [|by eexists].
        destruct (Hmap d0 eq_refl) as (f & Hf & [b Hb]).
        rewrite (getitem_Some _ _ _ Hf). cbn [mbind result_bind rbind].
        rewrite Hb. by eexists. }
      rewrite (init_after_setup _ _ _ _ _ _ _ _ _ _ _ _ _ Hb).
      pose proof (complete_default _ _ _ default_decoder_complete Hdec) as Hd.
      pose proof (complete_default _ _ _ default_general_complete Hgen) as Hg.
      destruct (Hd "hidden_dim") as [v1 H1]; [solve_elem|].
      destruct (Hd "num_heads") as [v2 H2]; [solve_elem|].
      destruct (Hd "decoder_layers") as [v3 H3]; [solve_elem|].
      destruct (Hg "init_std") as [v4 H4]; [solve_elem|].
      destruct (Hg "init_xavier_std") as [v5 H5]; [solve_elem|].
      rewrite (getitem_Some _ _ _ H1), (getitem_Some _ _ _ H2),
        (getitem_Some _ _ _ H3), (getitem_Some _ _ _ H4), (getitem_Some _ _ _ H5).
      cbn [mbind result_bind rbind]. apply Hsuper.
    + intros Hinit.
      destruct (init_succeeds_inv _ _ _ _ _ Hinit)
        as (g & b & t & d & Hok & Hd & Hg & Hown).
      destruct (setup_cfg_resolves _ _ _ _ _ _ _ _ _ _ _ Hok) as (-> & _ & ->).
      split; [|split; [|split; [|exact Hown]]].
      * intros d0 ->. rewrite Hsetup in Hok. unfold getitem in Hok.
        destruct (CONFIG_MAPPING !! ty) as [f|] eqn:Hf; [|done].
        cbn [mbind result_bind rbind] in Hok. exists f. split; [done|].
        destruct (f (delete "model_type" d0)) as [b'|]; [by eexists|done].
      * intros g0 k -> Hk. by apply Hg.
      * intros d0 k -> Hk. by apply Hd.
Qed.

(** Once an attribute was set from a sub-record, it holds the value of
    the sub-record afterwards exactly when it is left as it was. *)
Lemma mirrors_iff (own self : gmap string (@attr config)) name d key :
  mirrors own name d key →
  mirrors self name d key ↔ self !! name = own !! name.
Proof using Type.
  intros (v & Hd & Hown). split.
  - intros (v' & Hd' & Hself). rewrite Hself, Hown. congruence.
  - intros Heq. exists v. split; [done|]. by rewrite Heq.
Qed.

(** Claim C5.  When the initializer of the base class is called, last,
    with the object [own], the attributes [hidden_size],
    [num_attention_heads] and [num_hidden_layers] of [own] hold the
    ["hidden_dim"], ["num_heads"] and ["decoder_layers"] of the decoder
    sub-record [d] that [_setup_cfg] resolved (the supplied one when
    supplied), and [init_std] and [init_xavier_std] hold the entries of
    the same names of the general sub-record [g].  In the constructed
    object, each of the five holds the value of the sub-record exactly
    when the initializer of the base class has left that attribute as
    it found it. *)
Theorem OneFormerConfig_derived_fields gen bb txt dec kwargs g b t d self :
  setup gen bb txt dec = Ok (g, b, t, d) →
  init gen bb txt dec kwargs = Ok self →
  (∀ d0, dec = Some d0 → d = d0)
  ∧ (∀ g0, gen = Some g0 → g = g0)
  ∧ ∃ own,
      super_init kwargs own = Ok self
      ∧ mirrors own "hidden_size" d "hidden_dim"
      ∧ mirrors own "num_attention_heads" d "num_heads"
      ∧ mirrors own "num_hidden_layers" d "decoder_layers"
      ∧ mirrors own "init_std" g "init_std"
      ∧ mirrors own "init_xavier_std" g "init_xavier_std"
      ∧ (mirrors self "hidden_size" d "hidden_dim"
         ↔ self !! "hidden_size" = own !! "hidden_size")
      ∧ (mirrors self "num_attention_heads" d "num_heads"
         ↔ self !! "num_attention_heads" = own !! "num_attention_heads")
      ∧ (mirrors self "num_hidden_layers" d "decoder_layers"
         ↔ self !! "num_hidden_layers" = own !! "num_hidden_layers")
      ∧ (mirrors self "init_std" g "init_std"
         ↔ self !! "init_std" = own !! "init_std")
      ∧ (mirrors self "init_xavier_std" g "init_xavier_std"
         ↔ self !! "init_xavier_std" = own !! "init_xavier_std").
Proof using Type.
  intros Hsetup Hinit.
  destruct (setup_cfg_resolves _ _ _ _ _ _ _ _ _ _ _ Hsetup) as (-> & _ & ->).
  destruct (init_Ok _ _ _ _ _ _ _ _ _ _ _ _ _ _ Hsetup Hinit)
    as (own & Hsuper & _ & M1 & M2 & M3 & M4 & M5).
  split; [by intros d0 ->|]. split; [by intros g0 ->|].
  exists own. split; [exact Hsuper|].
  split; [exact M1|]. split; [exact M2|]. split; [exact M3|].
  split; [exact M4|]. split; [exact M5|].
  split; [by apply mirrors_iff|]. split; [by apply mirrors_iff|].
  split; [by apply mirrors_iff|]. split; by apply mirrors_iff.
Qed.

End OneFormerConstruction.

(** ** The properties on concrete arguments *)

(** The sample base initializer leaves alone what the keyword arguments
    do not name. *)
Lemma sample_super_init_keeps {V W} (inj : V → W) (kwargs : gmap string V)
    (names : list string) self self' k :
  (∀ k, k ∈ names → kwargs !! k = None) →
  Sample.super_init inj kwargs self = Ok self' → k ∈ names → self' !! k = self !! k.
Proof.
  intros Hnone [= <-] Hk. apply lookup_union_r.
  by rewrite lookup_fmap, (Hnone k Hk).
Qed.

Lemma sample_kwargs_None (names : list string) k :
  "num_labels" ∉ names → k ∈ names → Sample.kwargs !! k = None.
Proof.
  intros Hnot Hk. unfold Sample.kwargs. apply lookup_singleton_ne.
  intros <-. done.
Qed.

Lemma convert_state_dict_ties_lm_head_witness :
  rename_keys
    [("model/decoder/ar_decoder/Stoken_embedding", NDArray [2; 2] [1%Z; 2%Z; 3%Z; 4%Z]);
     ("model/encoder/stem_conv/bias", NDArray [2] [5%Z; 6%Z])]
    (State [] ∅)
  = Ok (State [NDArray [2; 2] [1%Z; 2%Z; 3%Z; 4%Z]; NDArray [2] [5%Z; 6%Z]]
          (<["model.encoder.embeddings.patch_embeddings.projection.bias" := 1]>
             (<["model.decoder.embed_tokens.weight" := 0]> ∅)))
  ∧ ∃ st',
      convert_state_dict
        [("model/decoder/ar_decoder/Stoken_embedding", NDArray [2; 2] [1%Z; 2%Z; 3%Z; 4%Z]);
         ("model/encoder/stem_conv/bias", NDArray [2] [5%Z; 6%Z])]
      = Ok st'
      ∧ tensors st' = [NDArray [2; 2] [1%Z; 2%Z; 3%Z; 4%Z]; NDArray [2] [5%Z; 6%Z]]
      ∧ state_dict st' !! "lm_head.weight" = Some 0
      ∧ state_dict st' !! "model.decoder.embed_tokens.weight" = Some 0
      ∧ entry st' "lm_head.weight" = entry st' "model.decoder.embed_tokens.weight".
Proof.
  assert (rename_keys
    [("model/decoder/ar_decoder/Stoken_embedding", NDArray [2; 2] [1%Z; 2%Z; 3%Z; 4%Z]);
     ("model/encoder/stem_conv/bias", NDArray [2] [5%Z; 6%Z])]
    (State [] ∅)
  = Ok (State [NDArray [2; 2] [1%Z; 2%Z; 3%Z; 4%Z]; NDArray [2] [5%Z; 6%Z]]
          (<["model.encoder.embeddings.patch_embeddings.projection.bias" := 1]>
             (<["model.decoder.embed_tokens.weight" := 0]> ∅)))) as Hrun
    by (vm_compute; reflexivity).
  split; [exact Hrun|].
  destruct (proj1 (convert_state_dict_ties_lm_head _ _ Hrun) 0)
    as (st' & Hconv & Ht & Hd & Hlm & Hemb & _ & Hentry);
    [vm_compute; reflexivity|].
  exists st'. by repeat split.
Defined.

Lemma DPTConfig_readout_type_witness :
  (∃ self,
     DPTConfig.__init__ (Sample.super_init id) DPTConfig.defaults Sample.kwargs = Ok self
     ∧ self !! "readout_type" = Some (PStr "project"))
  ∧ DPTConfig.__init__ (Sample.super_init id)
      (DPTConfig.with_readout_type (PStr "concat") DPTConfig.defaults) Sample.kwargs
    = Raise ValueError
  ∧ DPTConfig.__init__ (Sample.strict_super_init id) DPTConfig.defaults
      (<["use_return_dict" := PBool true]> Sample.kwargs)
    = Raise (AttributeError "use_return_dict").
Proof.
  split; [|split].
  - apply (DPTConfig_readout_type (Sample.super_init id) DPTConfig.defaults
             Sample.kwargs "project" eq_refl); [by eexists|].
    right. right. reflexivity.
  - apply (DPTConfig_readout_type (Sample.super_init id)
             (DPTConfig.with_readout_type (PStr "concat") DPTConfig.defaults)
             Sample.kwargs "concat" eq_refl); [by eexists|done..].
  - apply (DPTConfig_readout_type (Sample.strict_super_init id) DPTConfig.defaults
             (<["use_return_dict" := PBool true]> Sample.kwargs) "project" eq_refl).
    reflexivity.
Defined.

(** With a keyword argument the base class refuses, construction with a
    supported [readout_type] does not succeed, and construction with an
    unsupported one raises the exception of the base class, not
    [ValueError]. *)
Lemma DPTConfig_readout_type_counterexample :
  DPTConfig.readout_type DPTConfig.defaults = PStr "project"
  ∧ DPTConfig.__init__ (Sample.strict_super_init id) DPTConfig.defaults
      (<["use_return_dict" := PBool true]> ∅)
    = Raise (AttributeError "use_return_dict")
  ∧ ¬ succeeds (DPTConfig.__init__ (Sample.strict_super_init id) DPTConfig.defaults
                  (<["use_return_dict" := PBool true]> ∅))
  ∧ DPTConfig.__init__ (Sample.strict_super_init id)
      (DPTConfig.with_readout_type (PStr "concat") DPTConfig.defaults)
      (<["use_return_dict" := PBool true]> ∅)
    = Raise (AttributeError "use_return_dict")
  ∧ DPTConfig.__init__ (Sample.strict_super_init id)
      (DPTConfig.with_readout_type (PStr "concat") DPTConfig.defaults)
      (<["use_return_dict" := PBool true]> ∅)
    ≠ Raise ValueError.
Proof.
  split; [reflexivity|]. split; [reflexivity|]. split; [by intros [self [=]]|].
  split; [reflexivity|]. intros [=].
Qed.

(** Evaluate the dictionary lookups of a goal on concrete dictionaries. *)
Ltac eval_getitem :=
  repeat match goal with
  | |- context [getitem ?d ?k] =>
      let r := eval vm_compute in (d !! k) in
      match r with
      | Some ?v => rewrite (getitem_Some d k v) by (vm_compute; reflexivity)
      | None => rewrite (getitem_None d k) by (vm_compute; reflexivity)
      end
  end.

(** The value an evaluated lookup gives. *)
Ltac pin D v :=
  let E := fresh in
  assert (Some _ = Some v) as E by (rewrite <- D; vm_compute; reflexivity);
  injection E as ->.

Section Witnesses.
Import OneFormerConfig.

#[local] Abbreviation sample_init :=
  (__init__ Sample.config_model_type Sample.MaskFormerSwinConfig
     Sample.CONFIG_MAPPING (Sample.super_init AVal)).
#[local] Abbreviation sample_setup :=
  (_setup_cfg Sample.config_model_type Sample.MaskFormerSwinConfig Sample.CONFIG_MAPPING).

Lemma OneFormerConfig_backbone_validation_witness :
  sample_init None
    (Some (BDict (<["model_type" := PStr "vit"]> (<["embed_dim" := PInt 96]> ∅))))
    None None Sample.kwargs
  = Raise ValueError
  ∧ sample_init None (Some (BConfig ("resnet", ∅))) None None Sample.kwargs
    = Raise ValueError
  ∧ succeeds
      (sample_init None
         (Some (BDict (<["model_type" := PStr "swin"]> (<["embed_dim" := PInt 96]> ∅))))
         None None Sample.kwargs)
  ∧ succeeds (sample_init None (Some (BConfig ("dinat", ∅))) None None Sample.kwargs).
Proof.
  split; [|split; [|split]].
  - apply (OneFormerConfig_backbone_validation
             Sample.config_model_type Sample.MaskFormerSwinConfig
             Sample.CONFIG_MAPPING (Sample.super_init AVal)
             None _ None None Sample.kwargs (PStr "vit")).
    + left. eexists. split; [reflexivity|vm_compute; reflexivity].
    + intros ty [= <-]. done.
  - apply (OneFormerConfig_backbone_validation
             Sample.config_model_type Sample.MaskFormerSwinConfig
             Sample.CONFIG_MAPPING (Sample.super_init AVal)
             None _ None None Sample.kwargs (PStr "resnet")).
    + right. eexists. split; reflexivity.
    + intros ty [= <-]. done.
  - destruct (OneFormerConfig_backbone_validation
                Sample.config_model_type Sample.MaskFormerSwinConfig
                Sample.CONFIG_MAPPING (Sample.super_init AVal)
                None (BDict (<["model_type" := PStr "swin"]> (<["embed_dim" := PInt 96]> ∅)))
                None None Sample.kwargs (PStr "swin")) as [_ Hin].
    { left. eexists. split; [reflexivity|vm_compute; reflexivity]. }
    destruct (Hin "swin" eq_refl) as [Hok _]; [by left|]. apply Hok.
    + intros d0 [= <-]. exists (Sample.from_dict "swin").
      split; [vm_compute; reflexivity|by eexists].
    + intros d0 k [=].
    + intros d0 k [=].
    + intros self. by eexists.
  - destruct (OneFormerConfig_backbone_validation
                Sample.config_model_type Sample.MaskFormerSwinConfig
                Sample.CONFIG_MAPPING (Sample.super_init AVal)
                None (BConfig ("dinat", ∅)) None None Sample.kwargs (PStr "dinat"))
      as [_ Hin].
    { right. eexists. split; reflexivity. }
    destruct (Hin "dinat" eq_refl) as [Hok _]; [by right; left|]. apply Hok.
    + intros d0 [=].
    + intros d0 k [=].
    + intros d0 k [=].
    + intros self. by eexists.
Defined.

(** A backbone of the supported type ["swin"] with a [decoder_config]
    that has no ["hidden_dim"]: construction does not succeed. *)
Lemma OneFormerConfig_backbone_validation_counterexample :
  Sample.config_model_type ("swin", ∅) = PStr "swin"
  ∧ sample_init None (Some (BConfig ("swin", ∅))) None (Some ∅) Sample.kwargs
    = Raise (KeyError "hidden_dim")
  ∧ ¬ succeeds (sample_init None (Some (BConfig ("swin", ∅))) None (Some ∅) Sample.kwargs).
Proof.
  assert (sample_init None (Some (BConfig ("swin", ∅))) None (Some ∅) Sample.kwargs
          = Raise (KeyError "hidden_dim")) as Hraise.
  { assert (sample_setup None (Some (BConfig ("swin", ∅))) None (Some ∅)
            = Ok (default_general_config, ("swin", ∅),
                  default_text_encoder_config, ∅)) as Hsetup by reflexivity.
    rewrite (init_after_setup _ _ _ _ _ _ _ _ _ _ _ _ _ Hsetup).
    eval_getitem. reflexivity. }
  split; [reflexivity|]. split; [exact Hraise|].
  rewrite Hraise. by intros [self [=]].
Qed.

Lemma sample_keeps (names : list string) :
  "num_labels" ∉ names →
  super_init_keeps (config := Sample.config) (Sample.super_init AVal) Sample.kwargs names.
Proof.
  intros Hnot self self' k Hsuper Hk.
  eapply sample_super_init_keeps; [|exact Hsuper|exact Hk].
  intros k'. by apply sample_kwargs_None.
Qed.

Lemma OneFormerConfig_derived_fields_witness :
  sample_setup None None None
    (Some (<["hidden_dim" := PInt 512]> (<["num_heads" := PInt 16]>
             (<["decoder_layers" := PInt 6]> ∅))))
  = Ok (default_general_config,
        ("maskformer-swin", default_backbone_kwargs),
        default_text_encoder_config,
        <["hidden_dim" := PInt 512]> (<["num_heads" := PInt 16]>
          (<["decoder_layers" := PInt 6]> ∅)))
  ∧ ∃ self,
      sample_init None None None
        (Some (<["hidden_dim" := PInt 512]> (<["num_heads" := PInt 16]>
                 (<["decoder_layers" := PInt 6]> ∅))))
        Sample.kwargs = Ok self
      ∧ self !! "hidden_size" = Some (AVal (PInt 512))
      ∧ self !! "num_attention_heads" = Some (AVal (PInt 16))
      ∧ self !! "num_hidden_layers" = Some (AVal (PInt 6))
      ∧ self !! "init_std" = Some (AVal (PFloat 2 (-2)))
      ∧ self !! "init_xavier_std" = Some (AVal (PFloat 10 (-1))).
Proof.
  assert (sample_setup None None None
    (Some (<["hidden_dim" := PInt 512]> (<["num_heads" := PInt 16]>
             (<["decoder_layers" := PInt 6]> ∅))))
  = Ok (default_general_config,
        ("maskformer-swin", default_backbone_kwargs),
        default_text_encoder_config,
        <["hidden_dim" := PInt 512]> (<["num_heads" := PInt 16]>
          (<["decoder_layers" := PInt 6]> ∅)))) as Hsetup
    by reflexivity.
  split; [exact Hsetup|].
  assert (∃ self, sample_init None None None
        (Some (<["hidden_dim" := PInt 512]> (<["num_heads" := PInt 16]>
                 (<["decoder_layers" := PInt 6]> ∅))))
        Sample.kwargs = Ok self) as [self Hinit]
    by (rewrite (init_after_setup _ _ _ _ _ _ _ _ _ _ _ _ _ Hsetup);
        eval_getitem; by eexists).
  exists self. split; [exact Hinit|].
  destruct (OneFormerConfig_derived_fields _ _ _ _ _ _ _ _ _ _ _ _ _ _ Hsetup Hinit)
    as (_ & _ & own & Hsuper & (v1 & D1 & S1) & (v2 & D2 & S2) & (v3 & D3 & S3)
        & (v4 & D4 & S4) & (v5 & D5 & S5) & _).
  pin D1 (PInt 512). pin D2 (PInt 16). pin D3 (PInt 6).
  pin D4 (PFloat 2 (-2)). pin D5 (PFloat 10 (-1)).
  assert (∀ k, k ∈ ["hidden_size"; "num_attention_heads"; "num_hidden_layers";
                    "init_std"; "init_xavier_std"] → self !! k = own !! k) as Hkept.
  { intros k Hk. eapply sample_super_init_keeps; [|exact Hsuper|exact Hk].
    intros k'. apply sample_kwargs_None. apply (bool_decide_unpack _). vm_compute. exact I. }
  rewrite <- (Hkept "hidden_size") in S1 by solve_elem.
  rewrite <- (Hkept "num_attention_heads") in S2 by solve_elem.
  rewrite <- (Hkept "num_hidden_layers") in S3 by solve_elem.
  rewrite <- (Hkept "init_std") in S4 by solve_elem.
  rewrite <- (Hkept "init_xavier_std") in S5 by solve_elem.
  by repeat split.
Defined.

(** The keyword argument [hidden_size=5], with every sub-record
    omitted: the constructed object has [hidden_size] 5, and its
    decoder sub-record has ["hidden_dim"] 256. *)
Lemma OneFormerConfig_derived_fields_counterexample :
  ∃ self,
    sample_init None None None None {["hidden_size" := PInt 5]} = Ok self
    ∧ self !! "decoder_config" = Some (ADict default_decoder_config)
    ∧ default_decoder_config !! "hidden_dim" = Some (PInt 256)
    ∧ self !! "hidden_size" = Some (AVal (PInt 5))
    ∧ ¬ mirrors self "hidden_size" default_decoder_config "hidden_dim".
Proof.
  assert (sample_setup None None None None
          = Ok (default_general_config,
                ("maskformer-swin", default_backbone_kwargs),
                default_text_encoder_config,
                default_decoder_config)) as Hsetup by reflexivity.
  rewrite (init_after_setup _ _ _ _ _ _ _ _ _ _ _ _ _ Hsetup).
  eval_getitem. cbn [mbind result_bind rbind]. unfold Sample.super_init.
  eexists. split; [reflexivity|].
  assert (default_decoder_config !! "hidden_dim" = Some (PInt 256)) as Hdim
    by (vm_compute; reflexivity).
  split; [|split; [exact Hdim|split]].
  - rewrite lookup_union_r by (by rewrite lookup_fmap, lookup_singleton_ne).
    repeat (rewrite lookup_insert_ne by done). apply lookup_insert_eq.
  - apply lookup_union_Some_l. by rewrite lookup_fmap, lookup_singleton_eq.
  - intros (v & Hv & Hself).
    rewrite (lookup_union_Some_l _ _ _ (AVal (PInt 5))) in Hself
      by (by rewrite lookup_fmap, lookup_singleton_eq).
    congruence.
Qed.

Lemma OneFormerConfig_to_dict_witness :
  sample_setup None (Some (BConfig ("swin", <["embed_dim" := PInt 96]> ∅))) None None
  = Ok (default_general_config,
        ("swin", <["embed_dim" := PInt 96]> ∅),
        default_text_encoder_config,
        default_decoder_config)
  ∧ ∃ self output,
      sample_init None (Some (BConfig ("swin", <["embed_dim" := PInt 96]> ∅))) None None
        Sample.kwargs = Ok self
      ∧ to_dict Sample.config_to_dict self = Ok output
      ∧ output !! "backbone_config"
        = Some (ADict (<["model_type" := PStr "swin"]> (<["embed_dim" := PInt 96]> ∅)))
      ∧ output !! "model_type" = Some (AVal (PStr "oneformer")).
Proof.
  assert (sample_setup None (Some (BConfig ("swin", <["embed_dim" := PInt 96]> ∅))) None None
  = Ok (default_general_config,
        ("swin", <["embed_dim" := PInt 96]> ∅),
        default_text_encoder_config,
        default_decoder_config)) as Hsetup
    by reflexivity.
  split; [exact Hsetup|].
  assert (∃ self, sample_init None
            (Some (BConfig ("swin", <["embed_dim" := PInt 96]> ∅))) None None
            Sample.kwargs = Ok self) as [self Hinit]
    by (rewrite (init_after_setup _ _ _ _ _ _ _ _ _ _ _ _ _ Hsetup);
        eval_getitem; by eexists).
  destruct (OneFormerConfig_to_dict _ Sample.config_to_dict _ _ _ _ _ _ _ _ _ _ _ _ _
              Hsetup Hinit)
    as (_ & output & Hout & Hb & Hm & _).
  { apply sample_keeps. apply (bool_decide_unpack _). vm_compute. exact I. }
  exists self, output. by repeat split.
Defined.


End Witnesses.

(** * More properties of the rewriter *)

(** ** More on strings *)

(** [str.replace] leaves a string without an occurrence as it is. *)
Lemma replace_from_absent old new s :
  contains old s = false → replace_from old new 0 s = s.
Proof.
  induction s as [|c s IH]; [done|].
  cbn [contains replace_from]. intros [Hs Hc]%orb_false_elim.
  rewrite Hs. f_equal. by apply IH.
Qed.

Lemma contains_empty s : contains "" s = true.
Proof. by destruct s. Qed.

Lemma replace_absent old new s : contains old s = false → replace old new s = s.
Proof.
  destruct old as [|a old]; [by rewrite contains_empty|].
  apply replace_from_absent.
Qed.

(** The tests [if old in name] of [rename_key] change nothing:
    replacing is all a rule does, whether the name has the substring or
    not. *)
Theorem sub_is_replace old new name : sub old new name = replace old new name.
Proof.
  unfold sub, rule. destruct (contains old name) eqn:H; [done|].
  symmetry. by apply replace_absent.
Qed.

(** Occurrences of a single character. *)
Lemma contains_char c a s :
  contains (String c "") (String a s) = Ascii.eqb c a || contains (String c "") s.
Proof. cbn [contains startswith]. by rewrite andb_true_r. Qed.

Lemma contains_char_app c s1 s2 :
  contains (String c "") (s1 +:+ s2)
  = contains (String c "") s1 || contains (String c "") s2.
Proof.
  induction s1 as [|a s1 IH].
  - change ("" +:+ s2) with s2. by destruct s2.
  - change (String a s1 +:+ s2) with (String a (s1 +:+ s2)).
    by rewrite !contains_char, IH, orb_assoc.
Qed.

Lemma replace_from_keeps_absent c old new s k :
  contains (String c "") new = false →
  contains (String c "") s = false →
  contains (String c "") (replace_from old new k s) = false.
Proof.
  intros Hnew. revert k. induction s as [|a s IH]; intros k Hs; [done|].
  rewrite contains_char in Hs. apply orb_false_elim in Hs as [Ha Hs].
  cbn [replace_from]. destruct k as [|k]; [|by apply IH].
  destruct (startswith old (String a s)).
  - by rewrite contains_char_app, Hnew, IH.
  - by rewrite contains_char, Ha, IH.
Qed.

Lemma intersperse_keeps_absent c new s :
  contains (String c "") new = false →
  contains (String c "") s = false →
  contains (String c "") (intersperse new s) = false.
Proof.
  intros Hnew. induction s as [|a s IH]; intros Hs.
  - cbn [intersperse]. by rewrite contains_char_app, Hnew.
  - rewrite contains_char in Hs. apply orb_false_elim in Hs as [Ha Hs].
    cbn [intersperse]. by rewrite contains_char_app, Hnew, contains_char, Ha, IH.
Qed.

Lemma rule_keeps_absent c cond old new s :
  contains (String c "") new = false →
  contains (String c "") s = false →
  contains (String c "") (rule cond old new s) = false.
Proof.
  intros Hnew Hs. unfold rule. destruct (contains cond s); [|done].
  destruct old; [by apply intersperse_keeps_absent|by apply replace_from_keeps_absent].
Qed.

Lemma sub_keeps_absent c old new s :
  contains (String c "") new = false →
  contains (String c "") s = false →
  contains (String c "") (sub old new s) = false.
Proof. apply rule_keeps_absent. Qed.

(** Replacing a character removes it. *)
Lemma replace_char_removes c new s :
  contains (String c "") new = false →
  contains (String c "") (replace_from (String c "") new 0 s) = false.
Proof.
  intros Hnew. induction s as [|a s IH]; [done|].
  cbn [replace_from startswith String.length Nat.sub]. rewrite andb_true_r.
  destruct (Ascii.eqb c a) eqn:Ha.
  - by rewrite contains_char_app, Hnew, IH.
  - by rewrite contains_char, Ha, IH.
Qed.

Lemma sub_char_removes c new s :
  contains (String c "") new = false →
  contains (String c "") (sub (String c "") new s) = false.
Proof.
  intros Hnew. unfold sub, rule.
  destruct (contains (String c "") s) eqn:Hs; [|done].
  by apply replace_char_removes.
Qed.

Lemma structural_renames_no_slash name :
  contains "/" (structural_renames name) = false.
Proof.
  unfold structural_renames. cbv zeta.
  repeat first
    [ by apply (sub_char_removes "/" ".")
    | apply sub_keeps_absent; [reflexivity|]
    | apply rule_keeps_absent; [reflexivity|]
    | match goal with |- context [if ?b then _ else _] => destruct b end ].
Qed.

Lemma add_prefix_no_slash n : contains "/" n = false → contains "/" (add_prefix n) = false.
Proof.
  intros Hn. unfold add_prefix. case_match; [|done].
  by rewrite (contains_char_app "/" "model." n), Hn.
Qed.

Lemma rewritten_name_no_slash name : contains "/" (rewritten_name name) = false.
Proof.
  unfold rewritten_name, rename_gamma_beta, rename_kernel.
  do 3 (apply sub_keeps_absent; [reflexivity|]).
  apply structural_renames_no_slash.
Qed.

Section NoSlash.
Context {A : Type}.

(** A name [rename_key] returns has no ["/"] left. *)
Theorem rename_key_no_slash name (param : ndarray A) name' param' :
  rename_key name param = Ok (name', param') → contains "/" name' = false.
Proof.
  intros ->%rename_key_name. apply add_prefix_no_slash, rewritten_name_no_slash.
Qed.
End NoSlash.

Section MorePaths.
Context {A : Type}.
Implicit Types param : ndarray A.

Lemma size_of_app shp1 shp2 : size_of (shp1 ++ shp2) = size_of shp1 * size_of shp2.
Proof.
  unfold size_of. induction shp1 as [|d shp1 IH]; cbn [foldr app]; [lia|].
  rewrite IH. lia.
Qed.

(** The element at [(j, i)] of the transposed matrix is the element at
    [(i, j)] of the matrix. *)
Lemma np_transpose_matrix_lookup r c (d : list A) i j :
  length d = r * c → i < r → j < c →
  data (np_transpose (NDArray [r; c] d)) !! (j * r + i) = d !! (i * c + j).
Proof.
  intros Hlen Hi Hj.
  unfold np_transpose, permute_axes, asize, ndim. cbn [shape data].
  rewrite omap_total_lookup.
  - rewrite lookup_seq_lt by (cbn; nia).
    cbn [mbind option_bind Nat.add]. cbn.
    assert ((j * r + i) `mod` r = i) as ->.
    { rewrite Nat.add_comm, Nat.Div0.mod_add. by apply Nat.mod_small. }
    assert ((j * r + i) `div` r = j) as ->.
    { rewrite Nat.add_comm, Nat.div_add, Nat.div_small by lia. done. }
    by rewrite (Nat.mod_small j).
  - intros pos [_ Hpos]%elem_of_seq. cbn in Hpos.
    apply lookup_lt_is_Some. rewrite Hlen. cbn.
    assert (r ≠ 0 ∧ c ≠ 0) as [Hr Hc] by lia.
    pose proof (Nat.mod_upper_bound pos r Hr).
    pose proof (Nat.mod_upper_bound (pos `div` r) c Hc).
    nia.
Qed.

(** The path of a kernel that is no projection of an attention layer
    and no convolution. *)
Lemma rename_key_dense_kernel name param :
  is_out_proj (structural_renames name) = false →
  is_qkv (structural_renames name) = false →
  contains "kernel" (structural_renames name) = true →
  contains "patch_embeddings" (replace "kernel" "weight" (structural_renames name)) = false →
  rename_key name param
  = Ok (add_prefix (rename_gamma_beta
          (replace "kernel" "weight" (structural_renames name))), np_transpose param).
Proof.
  unfold rename_key. generalize (structural_renames name). intros n Ho Hq Hk Hp.
  by rewrite Ho, Hq, Hk, Hp.
Qed.

(** The path of the kernel of an attention output projection. *)
Lemma rename_key_out_proj_kernel name param :
  is_out_proj (structural_renames name) = true →
  is_qkv (structural_renames name) = false →
  contains "kernel" (structural_renames name) = true →
  contains "patch_embeddings" (replace "kernel" "weight" (structural_renames name)) = false →
  rename_key name param =
    (d ← shape_last param;
     p ← np_reshape_rows d param;
     Ok (add_prefix (rename_gamma_beta
           (replace "kernel" "weight" (structural_renames name))), np_transpose p)).
Proof.
  unfold rename_key. generalize (structural_renames name). intros n Ho Hq Hk Hp.
  rewrite Ho, Hq, Hk, Hp. unfold mbind, result_bind, rbind.
  repeat case_match; simplify_eq; reflexivity.
Qed.

(** The path of a query, key or value bias. *)
Lemma rename_key_qkv_bias name param :
  is_qkv (structural_renames name) = true →
  contains "kernel" (structural_renames name) = false →
  contains "bias" (structural_renames name) = true →
  rename_key name param
  = Ok (add_prefix (rename_gamma_beta (structural_renames name)), flatten param).
Proof.
  unfold rename_key. generalize (structural_renames name). intros n Hq Hk Hb.
  rewrite Hq, Hk, Hb. by destruct (is_out_proj n).
Qed.

Lemma np_transpose_axes_rank param :
  ndim param ≠ 4 → np_transpose_axes [3; 2; 0; 1] param = Raise ValueError.
Proof.
  intros Hrank. unfold np_transpose_axes.
  rewrite bool_decide_eq_false_2; [done|].
  intros Hperm%Permutation_length. rewrite length_seq in Hperm. cbn in Hperm. lia.
Qed.

End MorePaths.

Section TensorPaths.
Context {A : Type}.
Implicit Types param : ndarray A.

(** A parameter whose rewritten name has no ["kernel"] and is no
    query, key or value bias is renamed and nothing else: [rename_key]
    succeeds and returns the tensor it was given. *)
Theorem rename_key_keeps_tensor name param :
  contains "kernel" (structural_renames name) = false →
  is_qkv (structural_renames name) && contains "bias" (structural_renames name) = false →
  rename_key name param = Ok (add_prefix (rewritten_name name), param).
Proof.
  intros Hk Hq. rewrite rename_key_untouched by done.
  unfold rewritten_name. by rewrite rename_kernel_eq, Hk.
Qed.

(** A query, key or value bias is flattened, whatever its rank: the
    result has the one dimension [size] and the elements in their
    order. *)
Theorem rename_key_qkv_bias_flattened name param :
  is_qkv (structural_renames name) = true →
  contains "kernel" (structural_renames name) = false →
  contains "bias" (structural_renames name) = true →
  ∃ param',
    rename_key name param = Ok (add_prefix (rewritten_name name), param')
    ∧ shape param' = [asize param]
    ∧ data param' = data param
    ∧ asize param' = asize param.
Proof.
  intros Hq Hk Hb. exists (flatten param).
  rewrite rename_key_qkv_bias by done.
  unfold rewritten_name. rewrite rename_kernel_eq, Hk.
  repeat split. change (asize param * 1 = asize param). lia.
Qed.

(** The kernel of an attention output projection: a 0-d array raises
    [IndexError], a last dimension of 0 raises [ValueError], and an array
    of shape [(..., O)] with [0 < O] comes back as a matrix of shape
    [(size / O, O)] with as many elements. *)
Theorem rename_key_out_proj_weight name param :
  is_out_proj (structural_renames name) = true →
  is_qkv (structural_renames name) = false →
  contains "kernel" (structural_renames name) = true →
  contains "patch_embeddings" (replace "kernel" "weight" (structural_renames name)) = false →
  (shape param = [] → rename_key name param = Raise IndexError)
  ∧ (∀ pre, shape param = pre ++ [0] → rename_key name param = Raise ValueError)
  ∧ (∀ pre O,
       shape param = pre ++ [O] → 0 < O → well_formed param →
       ∃ name' param',
         rename_key name param = Ok (name', param')
         ∧ shape param' = [size_of pre; O]
         ∧ asize param' = asize param
         ∧ well_formed param').
Proof.
  intros Ho Hq Hk Hp.
  rewrite (rename_key_out_proj_kernel name param Ho Hq Hk Hp).
  unfold shape_last. split; [|split].
  - by intros ->.
  - intros pre ->. by rewrite last_snoc.
  - intros pre O Hshape Hpos Hwf. rewrite Hshape, last_snoc.
    cbn [mbind result_bind rbind].
    destruct param as [shp d]. unfold well_formed, asize in *.
    cbn [shape data] in *. subst shp. rewrite size_of_app in Hwf.
    cbn [size_of foldr] in Hwf.
    assert (np_reshape_rows O (NDArray (pre ++ [O]) d) = Ok (NDArray [O; size_of pre] d))
      as ->.
    { apply np_reshape_rows_ok; [done|]. unfold asize. cbn [shape].
      rewrite size_of_app. cbn. lia. }
    cbn [mbind result_bind rbind].
    destruct (np_transpose_matrix O (size_of pre) d) as [Hs Hl]; [lia|].
    eexists _, _. split; [reflexivity|]. rewrite Hs.
    split; [done|]. rewrite size_of_app. cbn [size_of foldr].
    split; [lia|]. rewrite Hl. lia.
Qed.

(** The kernel of a query, key or value projection, for any rank: a
    0-d array raises [IndexError], a first dimension of 0 raises
    [ValueError], and an array of shape [(H, ...)] with [0 < H] comes
    back as a matrix of shape [(size / H, H)] with as many elements. *)
Theorem rename_key_qkv_weight_any_rank name param :
  is_qkv (structural_renames name) = true →
  is_out_proj (structural_renames name) = false →
  contains "kernel" (structural_renames name) = true →
  contains "patch_embeddings" (replace "kernel" "weight" (structural_renames name)) = false →
  (shape param = [] → rename_key name param = Raise IndexError)
  ∧ (∀ rest, shape param = 0 :: rest → rename_key name param = Raise ValueError)
  ∧ (∀ H rest,
       shape param = H :: rest → 0 < H → well_formed param →
       ∃ name' param',
         rename_key name param = Ok (name', param')
         ∧ shape param' = [size_of rest; H]
         ∧ asize param' = asize param
         ∧ well_formed param').
Proof.
  intros Hq Ho Hk Hp.
  rewrite (rename_key_qkv_kernel name param Hq Hk Hp), Ho.
  cbn [mbind result_bind rbind]. unfold shape_first. split; [|split].
  - by intros ->.
  - intros rest ->. reflexivity.
  - intros H rest Hshape Hpos Hwf. rewrite Hshape. cbn [head mbind result_bind rbind].
    destruct param as [shp d]. unfold well_formed, asize in *.
    cbn [shape data] in *. subst shp. cbn [size_of foldr] in Hwf.
    fold (size_of rest) in Hwf.
    assert (np_reshape_rows H (NDArray (H :: rest) d) = Ok (NDArray [H; size_of rest] d))
      as ->.
    { apply np_reshape_rows_ok; [done|]. reflexivity. }
    cbn [mbind result_bind rbind].
    destruct (np_transpose_matrix H (size_of rest) d) as [Hs Hl]; [lia|].
    eexists _, _. split; [reflexivity|]. rewrite Hs.
    split; [done|]. cbn [size_of foldr]. fold (size_of rest).
    split; [lia|]. rewrite Hl. lia.
Qed.

(** Any other kernel of shape [(I, O)] that is no convolution is
    transposed: the result has shape [(O, I)] and its element [(o, i)] is
    the element [(i, o)] of the kernel. *)
Theorem rename_key_dense_weight_transposed name param I O :
  is_out_proj (structural_renames name) = false →
  is_qkv (structural_renames name) = false →
  contains "kernel" (structural_renames name) = true →
  contains "patch_embeddings" (replace "kernel" "weight" (structural_renames name)) = false →
  shape param = [I; O] → well_formed param →
  ∃ name' param',
    rename_key name param = Ok (name', param')
    ∧ shape param' = [O; I]
    ∧ well_formed param'
    ∧ ∀ i o, i < I → o < O → data param' !! (o * I + i) = data param !! (i * O + o).
Proof.
  intros Ho Hq Hk Hp Hshape Hwf.
  rewrite (rename_key_dense_kernel name param Ho Hq Hk Hp).
  destruct param as [shp d]. unfold well_formed, asize in *.
  cbn [shape data] in *. subst shp. cbn [size_of foldr] in Hwf.
  destruct (np_transpose_matrix I O d) as [Hs Hl]; [lia|].
  eexists _, _. split; [reflexivity|]. rewrite Hs.
  split; [done|]. split; [rewrite Hl; cbn; lia|].
  intros i o Hi Hoo. apply np_transpose_matrix_lookup; [lia|done..].
Qed.

(** The kernel of the patch embedding must have rank 4: for any other
    rank [rename_key] raises [ValueError]; so it does for a kernel one of
    whose four dimensions is 1, once the driver has squeezed it. *)
Theorem rename_key_conv_kernel_rank name param :
  is_out_proj (structural_renames name) = false →
  is_qkv (structural_renames name) = false →
  contains "kernel" (structural_renames name) = true →
  contains "patch_embeddings" (replace "kernel" "weight" (structural_renames name)) = true →
  (ndim param ≠ 4 → rename_key name param = Raise ValueError)
  ∧ (∀ h w c o,
       shape param = [h; w; c; o] → h = 1 ∨ w = 1 ∨ c = 1 ∨ o = 1 →
       rename_key name (squeeze param) = Raise ValueError).
Proof.
  intros Ho Hq Hk Hp.
  assert (∀ p : ndarray A, ndim p ≠ 4 → rename_key name p = Raise ValueError) as Hrank.
  { intros p Hn. rewrite (rename_key_conv_kernel name p Ho Hq Hk Hp).
    by rewrite np_transpose_axes_rank. }
  split; [apply Hrank|].
  intros h w c o Hshape Hone. apply Hrank.
  unfold ndim, squeeze. cbn [shape]. rewrite Hshape.
  rewrite !filter_cons, filter_nil.
  repeat case_decide; cbn [length]; lia.
Qed.

End TensorPaths.

(** * Loading the checkpoint *)

Section LoadingFacts.
Context {A : Type}.
Implicit Types (a : ndarray A) (tf_vars init_vars : list (string * ndarray A)).

Lemma size_of_filter_ones shp : size_of (filter (λ d, d ≠ 1) shp) = size_of shp.
Proof.
  unfold size_of. induction shp as [|d shp IH]; [done|].
  rewrite filter_cons. case_decide as Hd; cbn [foldr]; rewrite IH; [done|].
  assert (d = 1) as -> by (destruct (decide (d = 1)); [done|contradiction]). lia.
Qed.

(** [squeeze] keeps the elements and their number, leaves no dimension
    of length 1 and does nothing when applied again. *)
Lemma squeeze_spec a :
  asize (squeeze a) = asize a
  ∧ data (squeeze a) = data a
  ∧ (well_formed a → well_formed (squeeze a))
  ∧ (1 ∉ shape (squeeze a))
  ∧ ndim (squeeze a) ≤ ndim a
  ∧ squeeze (squeeze a) = squeeze a.
Proof.
  unfold squeeze, well_formed, asize, ndim. cbn [shape data].
  rewrite size_of_filter_ones. repeat split.
  - done.
  - intros [Hone _]%list_elem_of_filter. by apply Hone.
  - apply length_filter.
  - f_equal. apply list_filter_filter_l. done.
Qed.

(** [dict_set] on the items of a dictionary. *)
Lemma dict_set_keys key (value : ndarray A) (d : list (string * ndarray A)) n :
  n ∈ (dict_set key value d).*1 ↔ n = key ∨ n ∈ d.*1.
Proof.
  induction d as [|[k v] d IH]; cbn [dict_set fmap list_fmap].
  - rewrite list_elem_of_singleton, elem_of_nil. cbn. tauto.
  - destruct (String.eqb_spec k key) as [->|Hne]; cbn [fmap list_fmap fst];
      rewrite !elem_of_cons; [tauto|]. rewrite IH. cbn. tauto.
Qed.

Lemma dict_set_NoDup key (value : ndarray A) (d : list (string * ndarray A)) :
  NoDup d.*1 → NoDup (dict_set key value d).*1.
Proof.
  induction d as [|[k v] d IH]; cbn [dict_set fmap list_fmap fst].
  - intros _. apply NoDup_singleton.
  - intros [Hk Hd]%NoDup_cons.
    destruct (String.eqb_spec k key) as [->|Hne]; cbn [fmap list_fmap fst].
    + by apply NoDup_cons.
    + apply NoDup_cons. split; [|by apply IH].
      rewrite dict_set_keys. intros [->|?]; done.
Qed.

Lemma dict_set_items key (value : ndarray A) (d : list (string * ndarray A)) x :
  x ∈ dict_set key value d → x = (key, value) ∨ x ∈ d.
Proof.
  induction d as [|[k v] d IH]; cbn [dict_set].
  - rewrite list_elem_of_singleton. auto.
  - destruct (String.eqb_spec k key) as [->|Hne]; rewrite !elem_of_cons;
      [tauto|]. intros [->|Hx]; [auto|]. destruct (IH Hx); auto.
Qed.

Lemma load_fold_NoDup init_vars tf_vars :
  NoDup tf_vars.*1 → NoDup (foldl load_step tf_vars init_vars).*1.
Proof.
  revert tf_vars. induction init_vars as [|nv l IH]; intros acc Hacc; [done|].
  cbn [foldl]. apply IH. unfold load_step. case_match; [|done].
  by apply dict_set_NoDup.
Qed.

Lemma load_fold_keys init_vars tf_vars n :
  n ∈ (foldl load_step tf_vars init_vars).*1
  ↔ n ∈ tf_vars.*1 ∨ (n ∈ init_vars.*1 ∧ is_model_weight n = true).
Proof.
  revert tf_vars. induction init_vars as [|[k v] l IH]; intros acc.
  - cbn. rewrite elem_of_nil. tauto.
  - cbn [foldl]. rewrite IH. unfold load_step. cbn [fst snd fmap list_fmap].
    rewrite elem_of_cons.
    destruct (is_model_weight k) eqn:Hk.
    + rewrite dict_set_keys. split; [|intros [?|[[->|?] ?]]]; try tauto.
      intros [[->|?]|[? ?]]; tauto.
    + split; [tauto|]. intros [?|[[->|?] ?]]; [tauto|congruence|tauto].
Qed.

Lemma load_fold_items init_vars tf_vars n a :
  (n, a) ∈ foldl load_step tf_vars init_vars →
  (n, a) ∈ tf_vars
  ∨ (is_model_weight n = true ∧ ∃ a0, (n, a0) ∈ init_vars ∧ a = squeeze a0).
Proof.
  revert tf_vars. induction init_vars as [|[k v] l IH]; intros acc; [by left|].
  cbn [foldl]. intros [Hacc|(Hn & a0 & Hin & ->)]%IH.
  - unfold load_step in Hacc. cbn [fst snd] in Hacc.
    destruct (is_model_weight k) eqn:Hk; [|by left].
    apply dict_set_items in Hacc as [[= -> ->]|?]; [|by left].
    right. split; [done|]. exists v. split; [by left|done].
  - right. split; [done|]. exists a0. split; [by right|done].
Qed.

Lemma load_fold_filter init_vars tf_vars :
  foldl load_step tf_vars (filter (λ nv, is_model_weight nv.1 = true) init_vars)
  = foldl load_step tf_vars init_vars.
Proof.
  revert tf_vars. induction init_vars as [|nv l IH]; intros acc; [done|].
  rewrite filter_cons. case_decide as Hk; cbn [foldl]; [by rewrite IH|].
  rewrite IH. unfold load_step. by destruct (is_model_weight nv.1).
Qed.

(** The variables the driver loads: their names are distinct, they are
    the variables of the checkpoint whose name contains ["model"] and, in
    lower case, does not contain ["optimizer"], and each array is the
    squeezed array of the checkpoint, without a dimension of length 1. *)
Theorem load_tf_vars_spec init_vars :
  NoDup (load_tf_vars init_vars).*1
  ∧ (∀ n, n ∈ (load_tf_vars init_vars).*1
          ↔ n ∈ init_vars.*1 ∧ is_model_weight n = true)
  ∧ (∀ n a, (n, a) ∈ load_tf_vars init_vars →
       contains "model" n = true
       ∧ contains "optimizer" (lower n) = false
       ∧ (1 ∉ shape a)
       ∧ ∃ a0, (n, a0) ∈ init_vars ∧ a = squeeze a0).
Proof.
  unfold load_tf_vars.
  split; [|split].
  - apply load_fold_NoDup. constructor.
  - intros n. rewrite load_fold_keys. cbn. rewrite elem_of_nil. tauto.
  - intros n a [[]%elem_of_nil|(Hn & a0 & Hin & ->)]%load_fold_items.
    unfold is_model_weight in Hn. apply andb_true_iff in Hn as [Hm Ho].
    apply negb_true_iff in Ho. repeat split; [done..| |by exists a0].
    apply squeeze_spec.
Qed.

(** Variables that are not weights of the model have no effect on the
    state dict. *)
Theorem convert_ignores_other_variables init_vars :
  convert_pix2seq_state_dict init_vars
  = convert_pix2seq_state_dict (filter (λ nv, is_model_weight nv.1 = true) init_vars).
Proof.
  unfold convert_pix2seq_state_dict, load_tf_vars.
  by rewrite load_fold_filter.
Qed.

End LoadingFacts.

(** * More on the loop of the driver *)

Section LoopFacts.
Context {A : Type}.
Implicit Types (st : state A) (tf_vars : list (string * ndarray A)).

Lemma target_eq name (param : ndarray A) :
  target (name, param) = add_prefix (rewritten_name name).
Proof. reflexivity. Qed.

Lemma rename_keys_app tf_vars1 tf_vars2 st :
  rename_keys (tf_vars1 ++ tf_vars2) st
  = (st1 ← rename_keys tf_vars1 st; rename_keys tf_vars2 st1).
Proof.
  revert st. induction tf_vars1 as [|[name param] rest IH]; intros st; [done|].
  cbn [app]. rewrite !rename_keys_cons.
  destruct (rename_key name param) as [np|e]; [|done]. apply IH.
Qed.

Lemma rename_keys_state_dict tf_vars st st' (k : string) :
  rename_keys tf_vars st = Ok st' →
  (k ∈ target <$> tf_vars → is_Some (state_dict st' !! k))
  ∧ (k ∉ target <$> tf_vars → state_dict st' !! k = state_dict st !! k).
Proof.
  revert st. induction tf_vars as [|[name param] rest IH]; intros st Hrun.
  - cbn in Hrun. simplify_eq. split; [by intros []%elem_of_nil|done].
  - rewrite rename_keys_cons in Hrun.
    destruct (rename_key name param) as [[name' param']|e] eqn:Hkey; [|done].
    apply rename_key_name in Hkey as Hname.
    rewrite <- (target_eq name param) in Hname. subst name'.
    destruct (IH _ Hrun) as [Hin Hout]. rewrite fmap_cons. split.
    + intros [->|Hk]%elem_of_cons; [|by apply Hin].
      destruct (decide (target (name, param) ∈ target <$> rest)) as [Hr|Hr];
        [by apply Hin|].
      rewrite (Hout Hr). cbn [state_dict fst].
      rewrite lookup_insert_eq. by eexists.
    + intros [Hne Hk]%not_elem_of_cons. rewrite (Hout Hk).
      cbn [state_dict fst]. by rewrite lookup_insert_ne.
Qed.



End LoopFacts.

Section LoopTheorems.
Context {A : Type}.
Implicit Types (st : state A) (tf_vars : list (string * ndarray A)).

Lemma rename_keys_entry_first n p tf_vars2 st st' t p' :
  rename_keys ((n, p) :: tf_vars2) st = Ok st' →
  rename_key n p = Ok (t, p') →
  t ∉ target <$> tf_vars2 →
  entry st' t = Some p'.
Proof.
  intros Hrun Hkey Hlast. rewrite rename_keys_cons in Hrun.
  destruct (rename_key n p) as [[t0 p0]|e] eqn:Hk; [|done].
  injection Hkey as -> ->. cbn [fst snd] in Hrun.
  destruct (rename_keys_state_dict _ _ _ t Hrun) as [_ Hsd].
  destruct (rename_keys_results _ _ _ Hrun) as (rs & _ & Htensors).
  cbn [state_dict tensors] in Hsd, Htensors.
  unfold entry. rewrite (Hsd Hlast), lookup_insert_eq. cbn [mbind option_bind].
  rewrite Htensors, <- app_assoc. apply list_lookup_middle. done.
Qed.

Lemma rename_keys_entry_last tf_vars1 n p tf_vars2 st st' t p' :
  rename_keys (tf_vars1 ++ (n, p) :: tf_vars2) st = Ok st' →
  rename_key n p = Ok (t, p') →
  t ∉ target <$> tf_vars2 →
  entry st' t = Some p'.
Proof.
  intros Hrun Hkey Hlast. revert st Hrun.
  induction tf_vars1 as [|[n1 p1] l IH]; intros st Hrun.
  - by eapply rename_keys_entry_first.
  - cbn [app] in Hrun. rewrite rename_keys_cons in Hrun.
    destruct (rename_key n1 p1) as [np|e]; [|done]. by eapply IH.
Qed.

(** After the loop there is one more tensor for each parameter, the
    state dict has an entry for what it had and for the name each
    parameter is stored under, and every entry is the address of a
    tensor. *)
Theorem rename_keys_state tf_vars st st' :
  rename_keys tf_vars st = Ok st' →
  length (tensors st') = length (tensors st) + length tf_vars
  ∧ (∀ k, is_Some (state_dict st' !! k)
          ↔ is_Some (state_dict st !! k) ∨ k ∈ target <$> tf_vars)
  ∧ (addresses_valid st → addresses_valid st').
Proof.
  intros Hrun. split; [|split].
  - destruct (rename_keys_results _ _ _ Hrun) as (rs & Hrs & ->).
    rewrite length_app, length_fmap. by rewrite (Forall2_length _ _ _ Hrs).
  - intros k. destruct (rename_keys_state_dict _ _ _ k Hrun) as [Hin Hout].
    destruct (decide (k ∈ target <$> tf_vars)) as [Hk|Hk].
    + split; [by right|]. intros _. by apply Hin.
    + rewrite (Hout Hk). tauto.
  - by apply (rename_keys_addresses_valid tf_vars).
Qed.

(** When several parameters are renamed to one name, the entry denotes
    the tensor of the last of them: the loop overwrites and does not
    raise. *)
Theorem rename_keys_last_write_wins tf_vars1 n p tf_vars2 st st' t p' :
  rename_keys (tf_vars1 ++ (n, p) :: tf_vars2) st = Ok st' →
  rename_key n p = Ok (t, p') →
  t ∉ target <$> tf_vars2 →
  entry st' t = Some p'.
Proof. apply rename_keys_entry_last. Qed.


(** After a conversion, ["lm_head.weight"] and
    ["model.decoder.embed_tokens.weight"] both denote the array of the
    last parameter stored under the latter name, as the checkpoint had
    it. *)
Theorem lm_head_is_token_embedding tf_vars1 n p tf_vars2 st' :
  convert_state_dict (tf_vars1 ++ (n, p) :: tf_vars2) = Ok st' →
  target (n, p) = "model.decoder.embed_tokens.weight" →
  contains "kernel" (structural_renames n) = false →
  is_qkv (structural_renames n) && contains "bias" (structural_renames n) = false →
  "model.decoder.embed_tokens.weight" ∉ target <$> tf_vars2 →
  entry st' "lm_head.weight" = Some p
  ∧ entry st' "model.decoder.embed_tokens.weight" = Some p.
Proof.
  intros Hconv Htarget Hk Hq Hlast. unfold convert_state_dict in Hconv.
  destruct (rename_keys _ _) as [st|] eqn:Hrun; [|done].
  cbn [mbind result_bind rbind] in Hconv.
  assert (rename_key n p = Ok ("model.decoder.embed_tokens.weight", p)) as Hkey.
  { rewrite rename_key_untouched by done. do 2 f_equal.
    rewrite <- Htarget. unfold target, rewritten_name. cbn [fst].
    by rewrite rename_kernel_eq, Hk. }
  pose proof (rename_keys_entry_last _ _ _ _ _ _ _ _ Hrun Hkey Hlast) as Hentry.
  unfold entry in Hentry.
  destruct (state_dict st !! "model.decoder.embed_tokens.weight") as [addr|] eqn:Haddr;
    [|done].
  cbn [mbind option_bind] in Hentry.
  unfold tie_lm_head in Hconv. rewrite Haddr in Hconv. simplify_eq.
  unfold entry. cbn [state_dict tensors].
  rewrite lookup_insert_eq, lookup_insert_ne by done. rewrite Haddr.
  cbn [mbind option_bind]. done.
Qed.

End LoopTheorems.

(** * More on [DPTConfig] *)

Section DPTMore.
Variable super_init :
  gmap string pyval → gmap string pyval → result (gmap string pyval).

(** What [__init__] returns, by cases. *)
Lemma DPTConfig_init_eq (a : DPTConfig.args) kwargs :
  DPTConfig.__init__ super_init a kwargs =
  match super_init kwargs ∅ with
  | Raise e => Raise e
  | Ok base =>
      if in_strings (DPTConfig.readout_type a) DPTConfig.readout_types
      then Ok (foldl (λ self kv, <[kv.1 := kv.2]> self) base (DPT_attributes a))
      else Raise ValueError
  end.
Proof.
  unfold DPTConfig.__init__. destruct (super_init kwargs ∅) as [base|e]; [|done].
  cbn [mbind result_bind rbind]. by destruct (in_strings _ _).
Qed.

(** A constructed [DPTConfig] holds each of the 24 arguments under its
    name (they are assigned once the initializer of the base class has
    returned), and is otherwise as the base class left it;
    [is_encoder_decoder] is accepted and not stored, so arguments that
    differ in it alone construct the same object. *)
Theorem DPTConfig_attributes (a : DPTConfig.args) kwargs self :
  DPTConfig.__init__ super_init a kwargs = Ok self →
  ∃ base,
    super_init kwargs ∅ = Ok base
    ∧ (∀ k v, (k, v) ∈ DPT_attributes a → self !! k = Some v)
    ∧ (∀ k, k ∉ (DPT_attributes a).*1 → self !! k = base !! k)
    ∧ self !! "is_encoder_decoder" = base !! "is_encoder_decoder"
    ∧ ∀ a', DPT_attributes a' = DPT_attributes a →
            DPTConfig.__init__ super_init a' kwargs = Ok self.
Proof.
  rewrite DPTConfig_init_eq.
  destruct (super_init kwargs ∅) as [base|e] eqn:Hbase; [|done].
  destruct (in_strings _ _) eqn:Hr; [|done].
  generalize (eq_refl (foldl (λ self kv, <[kv.1 := kv.2]> self) base (DPT_attributes a))).
  generalize (foldl (λ self kv, <[kv.1 := kv.2]> self) base (DPT_attributes a)) at 1 3.
  intros s0 Hs0 [= <-]. subst s0.
  exists base. split; [done|]. cbn [foldl DPT_attributes fst snd].
  assert (∀ k, k ∉ (DPT_attributes a).*1 →
            foldl (λ self kv, <[kv.1 := kv.2]> self) base (DPT_attributes a) !! k
            = base !! k) as Hframe.
  { intros k Hk. cbn [DPT_attributes fmap list_fmap fst] in Hk.
    rewrite !not_elem_of_cons in Hk. cbn [foldl DPT_attributes fst snd].
    repeat (rewrite lookup_insert_ne by (intros <-; tauto)). done. }
  cbn [foldl DPT_attributes fst snd] in Hframe.
  split; [|split; [exact Hframe|split]].
  - intros k v Hin. unfold DPT_attributes in Hin.
    rewrite !elem_of_cons, elem_of_nil in Hin.
    repeat (destruct Hin as [[= -> ->]|Hin];
            [repeat (rewrite lookup_insert_ne by done); apply lookup_insert_eq|]).
    done.
  - apply Hframe. cbn [DPT_attributes fmap list_fmap fst].
    rewrite !not_elem_of_cons. repeat split; first [done | apply not_elem_of_nil].
  - intros a' Heq. rewrite DPTConfig_init_eq, Hbase.
    rewrite Heq. unfold DPT_attributes in Heq.
    assert (DPTConfig.readout_type a' = DPTConfig.readout_type a) as ->
      by (injection Heq; intros; congruence).
    by rewrite Hr.
Qed.

(** [DPTConfig.__init__] raises [e] exactly when the base class raises
    [e], or the base class succeeds, [readout_type] is none of the three
    strings (a value that is no string included) and [e] is
    [ValueError]. *)
Theorem DPTConfig_failure (a : DPTConfig.args) kwargs e :
  DPTConfig.__init__ super_init a kwargs = Raise e
  ↔ super_init kwargs ∅ = Raise e
    ∨ (succeeds (super_init kwargs ∅)
       ∧ in_strings (DPTConfig.readout_type a) DPTConfig.readout_types = false
       ∧ e = ValueError).
Proof.
  rewrite DPTConfig_init_eq. destruct (super_init kwargs ∅) as [base|e0].
  - destruct (in_strings _ _); split.
    + done.
    + intros [[=]|(_ & [=] & _)].
    + intros [= <-]. right. split; [by eexists|done].
    + intros [[=]|(_ & _ & ->)]. done.
  - split; [intros [= ->]; by left|].
    intros [[= ->]|([? [=]] & _)]. done.
Qed.

End DPTMore.

(** * More on [OneFormerConfig] *)

Section OneFormerMore.
Import OneFormerConfig.
Context {config : Type}.
Variable config_model_type : config → pyval.
Variable config_to_dict : config → gmap string pyval.
Variable MaskFormerSwinConfig : gmap string pyval → result config.
Variable CONFIG_MAPPING : gmap string (gmap string pyval → result config).
Variable super_init :
  gmap string pyval → gmap string (@attr config) → result (gmap string (@attr config)).

#[local] Abbreviation setup :=
  (_setup_cfg config_model_type MaskFormerSwinConfig CONFIG_MAPPING).
#[local] Abbreviation init :=
  (__init__ config_model_type MaskFormerSwinConfig CONFIG_MAPPING super_init).

(** The sub-records [_setup_cfg] returns around the backbone. *)
#[local] Abbreviation resolved gen b txt dec :=
  (default default_general_config gen, b,
   default default_text_encoder_config txt,
   default default_decoder_config dec).

(** A backbone given as a dictionary: without ["model_type"],
    [_setup_cfg] raises [KeyError]; with a supported type, it raises
    [KeyError] for the type if [CONFIG_MAPPING] lacks it, and otherwise
    the backbone is what the [from_dict] of the class makes of the
    dictionary without its ["model_type"] entry, errors included. *)
Theorem OneFormerConfig_setup_backbone_dict gen d0 txt dec :
  (d0 !! "model_type" = None →
     setup gen (Some (BDict d0)) txt dec = Raise (KeyError "model_type"))
  ∧ ∀ ty,
      d0 !! "model_type" = Some (PStr ty) → ty ∈ backbones_supported →
      (CONFIG_MAPPING !! ty = None →
         setup gen (Some (BDict d0)) txt dec = Raise (KeyError ty))
      ∧ ∀ from_dict,
          CONFIG_MAPPING !! ty = Some from_dict →
          (∀ e, from_dict (delete "model_type" d0) = Raise e →
                setup gen (Some (BDict d0)) txt dec = Raise e)
          ∧ (∀ c, from_dict (delete "model_type" d0) = Ok c →
                  setup gen (Some (BDict d0)) txt dec = Ok (resolved gen c txt dec)).
Proof using Type.
  unfold _setup_cfg, backbone_model_type, getitem. split.
  - by intros ->.
  - intros ty -> Hty. cbn [mbind result_bind rbind in_strings].
    rewrite bool_decide_eq_true_2 by done. cbn [negb]. split.
    + by intros ->.
    + intros f ->. cbn [mbind result_bind rbind]. split.
      * by intros e ->.
      * by intros c ->.
Qed.

(** A backbone given as a configuration object of a supported type is
    kept as it is; an omitted backbone is what [MaskFormerSwinConfig]
    constructs, errors included.  The other sub-records are the supplied
    ones or the defaults. *)
Theorem OneFormerConfig_setup_backbone_object gen txt dec :
  (∀ c, in_strings (config_model_type c) backbones_supported = true →
        setup gen (Some (BConfig c)) txt dec = Ok (resolved gen c txt dec))
  ∧ (∀ c, MaskFormerSwinConfig default_backbone_kwargs = Ok c →
          setup gen None txt dec = Ok (resolved gen c txt dec))
  ∧ (∀ e, MaskFormerSwinConfig default_backbone_kwargs = Raise e →
          setup gen None txt dec = Raise e).
Proof using Type.
  unfold _setup_cfg, backbone_model_type. split; [|split].
  - intros c Hc. cbn [mbind result_bind rbind]. rewrite Hc. cbn [negb].
    by destruct (config_model_type c).
  - by intros c ->.
  - by intros e ->.
Qed.

(** Which key [__init__] reports missing: the first absent one among
    ["hidden_dim"], ["num_heads"], ["decoder_layers"] of the decoder
    sub-record, then ["init_std"], ["init_xavier_std"] of the general
    one. *)
Theorem OneFormerConfig_first_missing_key gen bb txt dec kwargs g b t d :
  setup gen bb txt dec = Ok (g, b, t, d) →
  (d !! "hidden_dim" = None → init gen bb txt dec kwargs = Raise (KeyError "hidden_dim"))
  ∧ (is_Some (d !! "hidden_dim") → d !! "num_heads" = None →
     init gen bb txt dec kwargs = Raise (KeyError "num_heads"))
  ∧ (is_Some (d !! "hidden_dim") → is_Some (d !! "num_heads") →
     d !! "decoder_layers" = None →
     init gen bb txt dec kwargs = Raise (KeyError "decoder_layers"))
  ∧ (complete decoder_keys (Some d) → g !! "init_std" = None →
     init gen bb txt dec kwargs = Raise (KeyError "init_std"))
  ∧ (complete decoder_keys (Some d) → is_Some (g !! "init_std") →
     g !! "init_xavier_std" = None →
     init gen bb txt dec kwargs = Raise (KeyError "init_xavier_std")).
Proof using Type.
  intros Hsetup. rewrite (init_after_setup _ _ _ _ _ _ _ _ _ _ _ _ _ Hsetup).
  unfold getitem, complete. repeat split.
  - by intros ->.
  - by intros [? ->] ->.
  - by intros [? ->] [? ->] ->.
  - intros Hd ->.
    destruct (Hd d "hidden_dim" eq_refl) as [? ->]; [solve_elem|].
    destruct (Hd d "num_heads" eq_refl) as [? ->]; [solve_elem|].
    destruct (Hd d "decoder_layers" eq_refl) as [? ->]; [solve_elem|]. done.
  - intros Hd [? ->] ->.
    destruct (Hd d "hidden_dim" eq_refl) as [? ->]; [solve_elem|].
    destruct (Hd d "num_heads" eq_refl) as [? ->]; [solve_elem|].
    destruct (Hd d "decoder_layers" eq_refl) as [? ->]; [solve_elem|]. done.
Qed.

(** With [decoder_config] omitted the constructed object has
    [hidden_size] 256, [num_attention_heads] 8 and [num_hidden_layers]
    10; with [general_config] omitted it has [init_std] 0.02 and
    [init_xavier_std] 1.0 (the base class leaving them alone). *)
Theorem OneFormerConfig_default_derived gen bb txt dec kwargs self :
  init gen bb txt dec kwargs = Ok self →
  super_init_keeps super_init kwargs
    ["hidden_size"; "num_attention_heads"; "num_hidden_layers";
     "init_std"; "init_xavier_std"] →
  (dec = None →
     self !! "hidden_size" = Some (AVal (PInt 256))
     ∧ self !! "num_attention_heads" = Some (AVal (PInt 8))
     ∧ self !! "num_hidden_layers" = Some (AVal (PInt 10)))
  ∧ (gen = None →
     self !! "init_std" = Some (AVal (PFloat 2 (-2)))
     ∧ self !! "init_xavier_std" = Some (AVal (PFloat 10 (-1)))).
Proof using Type.
  intros Hinit Hkeep.
  destruct (setup gen bb txt dec) as [[[[g b] t] d]|e] eqn:Hsetup.
  2:{ unfold __init__ in Hinit. by rewrite Hsetup in Hinit. }
  destruct (setup_cfg_resolves _ _ _ _ _ _ _ _ _ _ _ Hsetup) as (Hg & _ & Hd).
  destruct (init_Ok _ _ _ _ _ _ _ _ _ _ _ _ _ _ Hsetup Hinit)
    as (own & Hsuper & _ & (v1 & D1 & S1) & (v2 & D2 & S2) & (v3 & D3 & S3)
        & (v4 & D4 & S4) & (v5 & D5 & S5)).
  split.
  - intros ->. cbn [default] in Hd. subst d.
    rewrite !(Hkeep _ _ _ Hsuper) by solve_elem. rewrite S1, S2, S3.
    assert (Some v1 = Some (PInt 256)) as [= ->]
      by (rewrite <- D1; vm_compute; reflexivity).
    assert (Some v2 = Some (PInt 8)) as [= ->]
      by (rewrite <- D2; vm_compute; reflexivity).
    assert (Some v3 = Some (PInt 10)) as [= ->]
      by (rewrite <- D3; vm_compute; reflexivity).
    done.
  - intros ->. cbn [default] in Hg. subst g.
    rewrite !(Hkeep _ _ _ Hsuper) by solve_elem. rewrite S4, S5.
    assert (Some v4 = Some (PFloat 2 (-2))) as [= ->]
      by (rewrite <- D4; vm_compute; reflexivity).
    assert (Some v5 = Some (PFloat 10 (-1))) as [= ->]
      by (rewrite <- D5; vm_compute; reflexivity).
    done.
Qed.

(** When the five keys are there, [__init__] ends in the call of the
    initializer of the base class, on exactly nine attributes, four of
    which are the resolved sub-records: its result, or what it raises,
    is the result of the constructor. *)
Theorem OneFormerConfig_init_calls_base gen bb txt dec kwargs g b t d :
  setup gen bb txt dec = Ok (g, b, t, d) →
  complete decoder_keys (Some d) → complete general_keys (Some g) →
  ∃ own,
    init gen bb txt dec kwargs = super_init kwargs own
    ∧ (∀ k, is_Some (own !! k) ↔ k ∈ OneFormer_attributes)
    ∧ own !! "general_config" = Some (ADict g)
    ∧ own !! "backbone_config" = Some (AConfig b)
    ∧ own !! "text_encoder_config" = Some (ADict t)
    ∧ own !! "decoder_config" = Some (ADict d).
Proof using Type.
  clear config_to_dict.
  intros Hsetup Hd Hg. rewrite (init_after_setup _ _ _ _ _ _ _ _ _ _ _ _ _ Hsetup).
  destruct (Hd d "hidden_dim" eq_refl) as [v1 H1]; [solve_elem|].
  destruct (Hd d "num_heads" eq_refl) as [v2 H2]; [solve_elem|].
  destruct (Hd d "decoder_layers" eq_refl) as [v3 H3]; [solve_elem|].
  destruct (Hg g "init_std" eq_refl) as [v4 H4]; [solve_elem|].
  destruct (Hg g "init_xavier_std" eq_refl) as [v5 H5]; [solve_elem|].
  rewrite (getitem_Some _ _ _ H1), (getitem_Some _ _ _ H2), (getitem_Some _ _ _ H3),
    (getitem_Some _ _ _ H4), (getitem_Some _ _ _ H5).
  cbn [mbind result_bind rbind]. eexists. split; [reflexivity|].
  split;
    [|repeat split; repeat (rewrite lookup_insert_ne by done);
      apply lookup_insert_eq].
  intros k. unfold OneFormer_attributes.
  rewrite !lookup_insert_is_Some, lookup_empty, !elem_of_cons, elem_of_nil.
  split.
  - intros H. repeat (destruct H as [<-|[_ H]]; [tauto|]). by destruct H.
  - intros H. repeat (destruct H as [->|H];
      [repeat first [by left | right; split; [done|]]|]). done.
Qed.

(** [to_dict] needs the attribute [backbone_config] to be a
    configuration object and raises [AttributeError] otherwise; when it
    succeeds, the dictionary has the attributes of the instance and
    ["model_type"], and all but these two entries are those of the
    instance. *)
Theorem OneFormerConfig_to_dict_outcome (self : gmap string (@attr config)) :
  (∀ c, self !! "backbone_config" = Some (AConfig c) →
     ∃ output,
       to_dict config_to_dict self = Ok output
       ∧ (∀ k, is_Some (output !! k) ↔ is_Some (self !! k) ∨ k = "model_type")
       ∧ (∀ k, k ≠ "backbone_config" → k ≠ "model_type" → output !! k = self !! k))
  ∧ (self !! "backbone_config" = None →
     to_dict config_to_dict self = Raise (AttributeError "backbone_config"))
  ∧ (∀ v, self !! "backbone_config" = Some v → (∀ c, v ≠ AConfig c) →
     to_dict config_to_dict self = Raise (AttributeError "to_dict")).
Proof using Type.
  clear config_model_type MaskFormerSwinConfig CONFIG_MAPPING super_init.
  unfold to_dict. split; [|split].
  - intros c Hc. rewrite Hc. eexists. split; [reflexivity|]. split.
    + intros k. rewrite !lookup_insert_is_Some.
      destruct (decide (k = "model_type")) as [->|Hm]; [tauto|].
      destruct (decide (k = "backbone_config")) as [->|Hb].
      * split; [intros _; left; by exists (AConfig c)|]. intros _. right.
        split; [done|]. by left.
      * split; [intros [?|[_ [?|[_ ?]]]]; [congruence|congruence|by left]|].
        intros [?|?]; [|done]. right. split; [done|]. right. by split.
    + intros k Hb Hm. by rewrite !lookup_insert_ne.
  - by intros ->.
  - intros v -> Hv. destruct v; [done..|]. by destruct (Hv c).
Qed.

End OneFormerMore.

(** * More of the properties on concrete arguments *)

Lemma rename_key_no_slash_witness :
  rename_key "model/encoder/stem_conv/bias/.ATTRIBUTES/VARIABLE_VALUE"
    (NDArray [2] [1%Z; 2%Z])
  = Ok ("model.encoder.embeddings.patch_embeddings.projection.bias",
        NDArray [2] [1%Z; 2%Z])
  ∧ contains "/" "model.encoder.embeddings.patch_embeddings.projection.bias" = false.
Proof.
  assert (rename_key "model/encoder/stem_conv/bias/.ATTRIBUTES/VARIABLE_VALUE"
            (NDArray [2] [1%Z; 2%Z])
          = Ok ("model.encoder.embeddings.patch_embeddings.projection.bias",
                NDArray [2] [1%Z; 2%Z])) as Hrun by (vm_compute; reflexivity).
  split; [exact Hrun|]. exact (rename_key_no_slash _ _ _ _ Hrun).
Defined.

Lemma rename_key_keeps_tensor_witness :
  contains "kernel" (structural_renames "model/decoder/output_ln/gamma") = false
  ∧ rename_key "model/decoder/output_ln/gamma" (NDArray [2] [1%Z; 2%Z])
    = Ok (add_prefix (rewritten_name "model/decoder/output_ln/gamma"),
          NDArray [2] [1%Z; 2%Z]).
Proof.
  split; [vm_compute; reflexivity|].
  apply (rename_key_keeps_tensor "model/decoder/output_ln/gamma");
    vm_compute; reflexivity.
Defined.

Lemma rename_key_qkv_bias_flattened_witness :
  is_qkv (structural_renames
            "model/decoder/decoder/dec_layers/0/self_mha/_query_dense/bias") = true
  ∧ ∃ param',
      rename_key "model/decoder/decoder/dec_layers/0/self_mha/_query_dense/bias"
        (NDArray [2; 3] (seq 0 6))
      = Ok (add_prefix (rewritten_name
              "model/decoder/decoder/dec_layers/0/self_mha/_query_dense/bias"), param')
      ∧ shape param' = [asize (NDArray [2; 3] (seq 0 6))]
      ∧ data param' = seq 0 6
      ∧ asize param' = asize (NDArray [2; 3] (seq 0 6)).
Proof.
  split; [vm_compute; reflexivity|].
  apply (rename_key_qkv_bias_flattened
           "model/decoder/decoder/dec_layers/0/self_mha/_query_dense/bias"
           (NDArray [2; 3] (seq 0 6))); vm_compute; reflexivity.
Defined.

Lemma rename_key_out_proj_weight_witness :
  is_out_proj (structural_renames
     "model/decoder/decoder/dec_layers/0/self_mha/_output_dense/kernel") = true
  ∧ ∃ name' param',
      rename_key "model/decoder/decoder/dec_layers/0/self_mha/_output_dense/kernel"
        (NDArray [2; 3; 5] (seq 0 30)) = Ok (name', param')
      ∧ shape param' = [size_of [2; 3]; 5].
Proof.
  split; [vm_compute; reflexivity|].
  destruct (rename_key_out_proj_weight
              "model/decoder/decoder/dec_layers/0/self_mha/_output_dense/kernel"
              (NDArray [2; 3; 5] (seq 0 30)))
    as (_ & _ & Hok); [vm_compute; reflexivity..|].
  destruct (Hok [2; 3] 5) as (name' & param' & Hrun & Hshape & _);
    [reflexivity|lia|reflexivity|].
  exists name', param'. split; [exact Hrun|exact Hshape].
Defined.

Lemma rename_key_qkv_weight_any_rank_witness :
  is_qkv (structural_renames
     "model/decoder/decoder/dec_layers/0/cross_mha/_key_dense/kernel") = true
  ∧ ∃ name' param',
      rename_key "model/decoder/decoder/dec_layers/0/cross_mha/_key_dense/kernel"
        (NDArray [4; 6] (seq 0 24)) = Ok (name', param')
      ∧ shape param' = [size_of [6]; 4].
Proof.
  split; [vm_compute; reflexivity|].
  destruct (rename_key_qkv_weight_any_rank
              "model/decoder/decoder/dec_layers/0/cross_mha/_key_dense/kernel"
              (NDArray [4; 6] (seq 0 24)))
    as (_ & _ & Hok); [vm_compute; reflexivity..|].
  destruct (Hok 4 [6]) as (name' & param' & Hrun & Hshape & _);
    [reflexivity|lia|reflexivity|].
  exists name', param'. split; [exact Hrun|exact Hshape].
Defined.

Lemma rename_key_dense_weight_transposed_witness :
  is_qkv (structural_renames
     "model/decoder/decoder/dec_layers/0/mlp/mlp_layers/0/dense1/kernel") = false
  ∧ shape (NDArray [2; 3] (seq 0 6)) = [2; 3]
  ∧ well_formed (NDArray [2; 3] (seq 0 6))
  ∧ ∃ name' param',
      rename_key "model/decoder/decoder/dec_layers/0/mlp/mlp_layers/0/dense1/kernel"
        (NDArray [2; 3] (seq 0 6)) = Ok (name', param')
      ∧ shape param' = [3; 2]
      ∧ data param' !! (2 * 2 + 1) = seq 0 6 !! (1 * 3 + 2).
Proof.
  split; [vm_compute; reflexivity|]. split; [reflexivity|]. split; [reflexivity|].
  destruct (rename_key_dense_weight_transposed
              "model/decoder/decoder/dec_layers/0/mlp/mlp_layers/0/dense1/kernel"
              (NDArray [2; 3] (seq 0 6)) 2 3)
    as (name' & param' & Hrun & Hshape & _ & Hat);
    [vm_compute; reflexivity..|].
  exists name', param'. split; [exact Hrun|]. split; [exact Hshape|].
  apply (Hat 1 2); lia.
Defined.

Lemma rename_key_conv_kernel_rank_witness :
  contains "patch_embeddings"
    (replace "kernel" "weight" (structural_renames "model/encoder/stem_conv/kernel")) = true
  ∧ rename_key "model/encoder/stem_conv/kernel"
      (squeeze (NDArray [1; 2; 3; 4] (seq 0 24))) = Raise ValueError.
Proof.
  split; [vm_compute; reflexivity|].
  destruct (rename_key_conv_kernel_rank "model/encoder/stem_conv/kernel"
              (NDArray [1; 2; 3; 4] (seq 0 24)))
    as [_ Hsq]; [vm_compute; reflexivity..|].
  apply (Hsq 1 2 3 4); [reflexivity|by left].
Defined.

Lemma rename_keys_state_witness :
  rename_keys
    [("model/decoder/ar_decoder/Stoken_embedding", NDArray [2; 2] [1%Z; 2%Z; 3%Z; 4%Z]);
     ("model/encoder/stem_conv/bias", NDArray [2] [5%Z; 6%Z])]
    (State [] ∅)
  = Ok (State [NDArray [2; 2] [1%Z; 2%Z; 3%Z; 4%Z]; NDArray [2] [5%Z; 6%Z]]
          (<["model.encoder.embeddings.patch_embeddings.projection.bias" := 1]>
             (<["model.decoder.embed_tokens.weight" := 0]> ∅)))
  ∧ length [NDArray [2; 2] [1%Z; 2%Z; 3%Z; 4%Z]; NDArray [2] [5%Z; 6%Z]]
    = length (@nil (ndarray Z)) + 2.
Proof.
  assert (rename_keys
    [("model/decoder/ar_decoder/Stoken_embedding", NDArray [2; 2] [1%Z; 2%Z; 3%Z; 4%Z]);
     ("model/encoder/stem_conv/bias", NDArray [2] [5%Z; 6%Z])]
    (State [] ∅)
  = Ok (State [NDArray [2; 2] [1%Z; 2%Z; 3%Z; 4%Z]; NDArray [2] [5%Z; 6%Z]]
          (<["model.encoder.embeddings.patch_embeddings.projection.bias" := 1]>
             (<["model.decoder.embed_tokens.weight" := 0]> ∅)))) as Hrun
    by (vm_compute; reflexivity).
  split; [exact Hrun|].
  exact (proj1 (rename_keys_state _ _ _ Hrun)).
Defined.

Lemma rename_keys_last_write_wins_witness :
  (∃ st',
     rename_keys
       ([] ++ ("model/encoder/stem_conv/bias", NDArray [2] [5%Z; 6%Z])
           :: [("model/decoder/output_ln/gamma", NDArray [1] [7%Z])])
       (State [NDArray [2] [0%Z; 0%Z]]
          (<["model.encoder.embeddings.patch_embeddings.projection.bias" := 0]> ∅))
     = Ok st'
     ∧ entry st' "model.encoder.embeddings.patch_embeddings.projection.bias"
       = Some (NDArray [2] [5%Z; 6%Z])).
Proof.
  eexists. split; [vm_compute; reflexivity|].
  eapply (rename_keys_last_write_wins []
            "model/encoder/stem_conv/bias" (NDArray [2] [5%Z; 6%Z])
            [("model/decoder/output_ln/gamma", NDArray [1] [7%Z])]
            (State [NDArray [2] [0%Z; 0%Z]]
               (<["model.encoder.embeddings.patch_embeddings.projection.bias" := 0]> ∅))).
  - vm_compute. reflexivity.
  - vm_compute. reflexivity.
  - apply (bool_decide_unpack _). vm_compute. exact I.
Defined.

Lemma lm_head_is_token_embedding_witness :
  ∃ st',
    convert_state_dict
      ([("model/encoder/stem_conv/bias", NDArray [2] [5%Z; 6%Z])]
       ++ ("model/decoder/ar_decoder/Stoken_embedding/.ATTRIBUTES/VARIABLE_VALUE",
           NDArray [2; 2] [1%Z; 2%Z; 3%Z; 4%Z]) :: [])
    = Ok st'
    ∧ entry st' "lm_head.weight" = Some (NDArray [2; 2] [1%Z; 2%Z; 3%Z; 4%Z])
    ∧ entry st' "model.decoder.embed_tokens.weight"
      = Some (NDArray [2; 2] [1%Z; 2%Z; 3%Z; 4%Z]).
Proof.
  eexists. split; [vm_compute; reflexivity|].
  eapply (lm_head_is_token_embedding
            [("model/encoder/stem_conv/bias", NDArray [2] [5%Z; 6%Z])]
            "model/decoder/ar_decoder/Stoken_embedding/.ATTRIBUTES/VARIABLE_VALUE"
            (NDArray [2; 2] [1%Z; 2%Z; 3%Z; 4%Z]) []).
  - vm_compute. reflexivity.
  - vm_compute. reflexivity.
  - vm_compute. reflexivity.
  - vm_compute. reflexivity.
  - apply not_elem_of_nil.
Defined.

Lemma DPTConfig_attributes_witness :
  ∃ self,
    DPTConfig.__init__ (Sample.super_init id) DPTConfig.defaults Sample.kwargs = Ok self
    ∧ self !! "hidden_size" = Some (PInt 768)
    ∧ self !! "readout_type" = Some (PStr "project")
    ∧ self !! "num_labels" = Some (PInt 150)
    ∧ self !! "is_encoder_decoder" = None.
Proof.
  assert (∃ self, DPTConfig.__init__ (Sample.super_init id) DPTConfig.defaults
                    Sample.kwargs = Ok self)
    as [self Hinit].
  { rewrite DPTConfig_init_eq. by eexists. }
  exists self. split; [exact Hinit|].
  destruct (DPTConfig_attributes (Sample.super_init id) DPTConfig.defaults _ _ Hinit)
    as (base & Hbase & Hset & Hframe & Henc & _).
  split; [|split; [|split]].
  - apply Hset. unfold DPT_attributes. solve_elem.
  - apply Hset. unfold DPT_attributes. cbn [DPTConfig.readout_type DPTConfig.defaults].
    rewrite !elem_of_cons. tauto.
  - rewrite Hframe.
    + injection Hbase as <-. vm_compute. reflexivity.
    + apply (bool_decide_unpack _). vm_compute. exact I.
  - rewrite Henc. injection Hbase as <-. vm_compute. reflexivity.
Defined.

Section MoreWitnesses.
Import OneFormerConfig.

#[local] Abbreviation sample_init :=
  (__init__ Sample.config_model_type Sample.MaskFormerSwinConfig
     Sample.CONFIG_MAPPING (Sample.super_init AVal)).
#[local] Abbreviation sample_setup :=
  (_setup_cfg Sample.config_model_type Sample.MaskFormerSwinConfig Sample.CONFIG_MAPPING).

Lemma OneFormerConfig_first_missing_key_witness :
  sample_setup None None None
    (Some (<["hidden_dim" := PInt 512]> (<["decoder_layers" := PInt 6]> ∅)))
  = Ok (default_general_config,
        ("maskformer-swin", default_backbone_kwargs),
        default_text_encoder_config,
        <["hidden_dim" := PInt 512]> (<["decoder_layers" := PInt 6]> ∅))
  ∧ sample_init None None None
      (Some (<["hidden_dim" := PInt 512]> (<["decoder_layers" := PInt 6]> ∅)))
      Sample.kwargs
    = Raise (KeyError "num_heads").
Proof.
  assert (sample_setup None None None
    (Some (<["hidden_dim" := PInt 512]> (<["decoder_layers" := PInt 6]> ∅)))
  = Ok (default_general_config,
        ("maskformer-swin", default_backbone_kwargs),
        default_text_encoder_config,
        <["hidden_dim" := PInt 512]> (<["decoder_layers" := PInt 6]> ∅))) as Hsetup
    by reflexivity.
  split; [exact Hsetup|].
  destruct (OneFormerConfig_first_missing_key _ _ _ (Sample.super_init AVal)
              _ _ _ _ Sample.kwargs _ _ _ _ Hsetup) as (_ & Hheads & _).
  apply Hheads; [by eexists|vm_compute; reflexivity].
Defined.

Lemma OneFormerConfig_default_derived_witness :
  ∃ self,
    sample_init None None None None Sample.kwargs = Ok self
    ∧ self !! "hidden_size" = Some (AVal (PInt 256))
    ∧ self !! "num_attention_heads" = Some (AVal (PInt 8))
    ∧ self !! "num_hidden_layers" = Some (AVal (PInt 10))
    ∧ self !! "init_std" = Some (AVal (PFloat 2 (-2)))
    ∧ self !! "init_xavier_std" = Some (AVal (PFloat 10 (-1))).
Proof.
  assert (sample_setup None None None None
          = Ok (default_general_config,
                ("maskformer-swin", default_backbone_kwargs),
                default_text_encoder_config, default_decoder_config)) as Hsetup
    by reflexivity.
  assert (∃ self, sample_init None None None None Sample.kwargs = Ok self)
    as [self Hinit]
    by (rewrite (init_after_setup _ _ _ _ _ _ _ _ _ _ _ _ _ Hsetup);
        eval_getitem; by eexists).
  exists self. split; [exact Hinit|].
  destruct (OneFormerConfig_default_derived _ _ _ _ _ _ _ _ _ _ Hinit)
    as [Hdec Hgen].
  { apply sample_keeps. apply (bool_decide_unpack _). vm_compute. exact I. }
  destruct (Hdec eq_refl) as (H1 & H2 & H3). destruct (Hgen eq_refl) as (H4 & H5).
  repeat split; assumption.
Defined.

Lemma OneFormerConfig_init_calls_base_witness :
  sample_setup None None None None
  = Ok (default_general_config,
        ("maskformer-swin", default_backbone_kwargs),
        default_text_encoder_config, default_decoder_config)
  ∧ ∃ own,
      sample_init None None None None Sample.kwargs
      = Sample.super_init AVal Sample.kwargs own
      ∧ own !! "decoder_config" = Some (ADict default_decoder_config).
Proof.
  assert (sample_setup None None None None
          = Ok (default_general_config,
                ("maskformer-swin", default_backbone_kwargs),
                default_text_encoder_config, default_decoder_config)) as Hsetup
    by reflexivity.
  split; [exact Hsetup|].
  destruct (OneFormerConfig_init_calls_base _ _ _ (Sample.super_init AVal)
              _ _ _ _ Sample.kwargs _ _ _ _ Hsetup)
    as (own & Hinit & _ & _ & _ & _ & Hd).
  - intros d0 k [= <-]. apply default_decoder_complete.
  - intros g0 k [= <-]. apply default_general_complete.
  - exists own. split; [exact Hinit|exact Hd].
Defined.

End MoreWitnesses.
